(** * aws_nsm_interface: the NSM ioctl transport, embedded and verified

    A shallow embedding of [aws_nsm_interface/__init__.py] and
    [aws_nsm_interface/structs.py].  Python values are an inductive type,
    exceptions are the left summand of an outcome, and the interpreter's
    interaction with the outside (the CBOR codec, the allocator, the
    kernel) is threaded through an explicit world. *)

From Stdlib Require Import ZArith List String Ascii Bool Lia.
From Stdlib.Strings Require Import Byte.
Import ListNotations.
Local Open Scope string_scope.
Local Open Scope list_scope.
Local Open Scope Z_scope.
Set Warnings "-register-all".

(** ** Python values *)

(** The values that flow through the module: what the callers pass in and
    what [cbor2.loads] hands back for the data items the NSM protocol
    uses ([None], booleans, integers, byte and text strings, arrays,
    maps; floats and tagged items are not modelled).  A [str] is the
    sequence of its characters, a [bytes] the list of its bytes.  A
    [dict] is kept as the list of its bindings in insertion order; a
    lookup reads the latest binding of a key, which is what a Python dict
    retains when the same key is stored twice. *)
Inductive value : Type :=
| VNone
| VBool (b : bool)
| VInt (n : Z)
| VBytes (bs : list byte)
| VStr (s : string)
| VList (xs : list value)
| VDict (items : list (value * value)).

(** Modelled from the spec: the [IoctlError] class of
    [aws_nsm_interface/exceptions.py], the driver error that carries the
    value found under "Error".  The other constructors are the built-in
    exceptions the module's code can raise, and the two failures of its
    collaborators ([OSError] from [fcntl.ioctl], a decode error from
    [cbor2.loads]). *)
Inductive exn : Type :=
| ValueError (msg : string)
| TypeError
| AttributeError
| AssertionError
| OSError (errno : Z)
| CBORDecodeError
| IoctlError (payload : value).

Module Py.

(** [isinstance(v, dict)] *)
Definition isinstance_dict (v : value) : bool :=
  match v with VDict _ => true | _ => false end.

(** Is [k] the str [key]?  A str key equals no value of another type. *)
Definition is_key (key : string) (k : value) : bool :=
  match k with VStr s => String.eqb key s | _ => false end.

(** The latest binding of the str [key] among [items]. *)
Fixpoint lookup (key : string) (items : list (value * value)) : option value :=
  match items with
  | [] => None
  | (k, v) :: rest =>
      match lookup key rest with
      | Some v' => Some v'
      | None => if is_key key k then Some v else None
      end
  end.

(** [sub in s] on two strs: substring search. *)
Fixpoint str_contains (sub s : string) : bool :=
  if String.prefix sub s then true
  else match s with
       | EmptyString => false
       | String _ s' => str_contains sub s'
       end.

(** [key in v] for a str [key].  A dict tests its keys, a list its
    elements, a str searches the substring; [bytes] refuses a str operand
    and the remaining types are not containers: both raise [TypeError]. *)
Definition contains (key : string) (v : value) : exn + bool :=
  match v with
  | VDict items =>
      inr (match lookup key items with Some _ => true | None => false end)
  | VList xs => inr (existsb (is_key key) xs)
  | VStr s => inr (str_contains key s)
  | VBytes _ | VNone | VBool _ | VInt _ => inl TypeError
  end.

(** [v.get(key)]: only a dict has the method; an absent key gives
    [None]. *)
Definition get (v : value) (key : string) : exn + value :=
  match v with
  | VDict items =>
      inr (match lookup key items with Some x => x | None => VNone end)
  | _ => inl AttributeError
  end.

(** The stop index of the slice [xs[:n]] on a sequence of length [len]. *)
Definition slice_stop (len n : Z) : nat :=
  Z.to_nat (if n <? 0 then Z.max 0 (len + n) else n).

(** [v[:n]].  Sequences give their prefix.  [None], [bool] and [int] are
    not subscriptable ([TypeError]); a dict rejects the slice as a key
    ([TypeError: unhashable type] up to Python 3.11). *)
Definition slice_to (v : value) (n : Z) : exn + value :=
  match v with
  | VBytes bs => inr (VBytes (firstn (slice_stop (Z.of_nat (List.length bs)) n) bs))
  | VList xs => inr (VList (firstn (slice_stop (Z.of_nat (List.length xs)) n) xs))
  | VStr s =>
      inr (VStr (String.substring 0 (slice_stop (Z.of_nat (String.length s)) n) s))
  | VDict _ | VNone | VBool _ | VInt _ => inl TypeError
  end.

End Py.

(** ** ctypes: sizes, structures, raw memory *)

Module CTypes.

(** A C type as ctypes sees it: its size and its alignment, in bytes. *)
Record ctype : Type := { size : Z; align : Z }.

(** [c_void_p] and [c_size_t] both have the platform's pointer width. *)
Definition c_void_p (pointer_size : Z) : ctype :=
  {| size := pointer_size; align := pointer_size |}.

Definition c_size_t (pointer_size : Z) : ctype :=
  {| size := pointer_size; align := pointer_size |}.

Definition c_uint8 : ctype := {| size := 1; align := 1 |}.

(** Round [off] up to a multiple of [a]. *)
Definition align_up (off a : Z) : Z := (off + a - 1) / a * a.

(** Place one field after the bytes laid out so far; the state is the end
    offset and the largest alignment seen. *)
Definition place_field (acc : Z * Z) (f : ctype) : Z * Z :=
  (align_up (fst acc) (align f) + size f, Z.max (snd acc) (align f)).

(** A [ctypes.Structure] with the given [_fields_], native layout: every
    field at its natural alignment, the total padded to the largest one. *)
Definition Structure (fields : list ctype) : ctype :=
  let acc := fold_left place_field fields (0, 1) in
  {| size := align_up (fst acc) (snd acc); align := snd acc |}.

(** [ctypes.sizeof] *)
Definition sizeof (t : ctype) : Z := size t.

End CTypes.

(** *** structs.py *)

(** [class IoVec(ctypes.Structure)]: a pointer to a buffer and the length
    of its contents.  As a value: *)
Record IoVec : Type := { iov_base : Z; iov_len : Z }.

(** and as a layout, [_fields_ = [('iov_base', c_void_p), ('iov_len', c_size_t)]]. *)
Definition IoVec_layout (pointer_size : Z) : CTypes.ctype :=
  CTypes.Structure [CTypes.c_void_p pointer_size; CTypes.c_size_t pointer_size].

(** [class NsmMessage(ctypes.Structure)]: the request and the response
    descriptor. *)
Record NsmMessage : Type := { request : IoVec; response : IoVec }.

(** [_fields_ = [('request', IoVec), ('response', IoVec)]] *)
Definition NsmMessage_layout (pointer_size : Z) : CTypes.ctype :=
  CTypes.Structure [IoVec_layout pointer_size; IoVec_layout pointer_size].

(** [NsmMessage()]: ctypes zero-initialises a new structure. *)
Definition NsmMessage_new : NsmMessage :=
  {| request := {| iov_base := 0; iov_len := 0 |};
     response := {| iov_base := 0; iov_len := 0 |} |}.

(** *** Raw memory *)

(** The process memory the descriptors point into: one byte per address. *)
Definition memory : Type := Z -> byte.

(** The [n] bytes found from address [a] on. *)
Definition load_bytes (m : memory) (a n : Z) : list byte :=
  map (fun i => m (a + Z.of_nat i)) (seq 0 (Z.to_nat n)).

(** [m] with [bs] written from address [a] on. *)
Definition store_bytes (m : memory) (a : Z) (bs : list byte) : memory :=
  fun x =>
    if (a <=? x) && (x <? a + Z.of_nat (List.length bs))
    then nth (Z.to_nat (x - a)) bs x00
    else m x.

(** A ctypes array instance of one-byte elements: where it lives and how
    many elements it has ([len(buffer)]). *)
Record CArray : Type := { address : Z; array_len : Z }.

(** *** ioctl_opt *)

(** The [ioctl_opt] package's request-code arithmetic, which follows
    [asm-generic/ioctl.h]: 8 bits of number, 8 of type, 14 of size and 2
    of direction, from the low end up. *)
Module ioctl_opt.

Definition _IOC_NRBITS : Z := 8.
Definition _IOC_TYPEBITS : Z := 8.
Definition _IOC_SIZEBITS : Z := 14.
Definition _IOC_DIRBITS : Z := 2.

Definition _IOC_NRMASK : Z := Z.shiftl 1 _IOC_NRBITS - 1.
Definition _IOC_TYPEMASK : Z := Z.shiftl 1 _IOC_TYPEBITS - 1.
Definition _IOC_SIZEMASK : Z := Z.shiftl 1 _IOC_SIZEBITS - 1.
Definition _IOC_DIRMASK : Z := Z.shiftl 1 _IOC_DIRBITS - 1.

Definition _IOC_NRSHIFT : Z := 0.
Definition _IOC_TYPESHIFT : Z := _IOC_NRSHIFT + _IOC_NRBITS.
Definition _IOC_SIZESHIFT : Z := _IOC_TYPESHIFT + _IOC_TYPEBITS.
Definition _IOC_DIRSHIFT : Z := _IOC_SIZESHIFT + _IOC_SIZEBITS.

Definition IOC_NONE : Z := 0.
Definition IOC_WRITE : Z := 1.
Definition IOC_READ : Z := 2.

(** [IOC(dir, type, nr, size)]: the four range assertions, then the four
    fields shifted into place and or-ed together. *)
Definition IOC (dir type nr size : Z) : exn + Z :=
  if negb (dir <=? _IOC_DIRMASK) then inl AssertionError
  else if negb (type <=? _IOC_TYPEMASK) then inl AssertionError
  else if negb (nr <=? _IOC_NRMASK) then inl AssertionError
  else if negb (size <=? _IOC_SIZEMASK) then inl AssertionError
  else inr (Z.lor (Z.lor (Z.lor (Z.shiftl dir _IOC_DIRSHIFT)
                                (Z.shiftl type _IOC_TYPESHIFT))
                         (Z.shiftl nr _IOC_NRSHIFT))
                  (Z.shiftl size _IOC_SIZESHIFT)).

End ioctl_opt.

(** ** The environment of a call *)

(** An open (or closed) file object, as [open_nsm_device] returns it. *)
Record TextIO : Type := { fileno : Z; closed : bool }.

(** What one [ioctl(2)] on the device leaves behind: the error number when
    the call failed, the control structure and the memory as the kernel
    left them, and the device's next state. *)
Record ioctl_return (K : Type) : Type := {
  ret_errno : option Z;
  ret_message : NsmMessage;
  ret_memory : memory;
  ret_kernel : K
}.
Arguments ret_errno {K} _.
Arguments ret_message {K} _.
Arguments ret_memory {K} _.
Arguments ret_kernel {K} _.

(** The collaborators the module does not implement: the platform's
    pointer width, the payload codec ([cbor2.dumps], [cbor2.loads]) and
    the kernel side of the device, a state machine that answers
    [ioctl(fd, operation, &message)] with full access to memory. *)
Record Env : Type := {
  pointer_size : Z;
  dumps : value -> list byte;
  loads : list byte -> exn + value;
  kernel_state : Type;
  sys_ioctl : kernel_state -> Z -> Z -> NsmMessage -> memory ->
              ioctl_return kernel_state
}.

(** The observable interactions of a call, in order.  Each records what
    went out and what came back: the value handed to the encoder and its
    bytes; the control operation (descriptor, request code, the control
    structure as submitted, the bytes its request descriptor designates
    at that moment) with the error number and the structure as the kernel
    returned it; the bytes handed to the decoder and its outcome. *)
Inductive event : Type :=
| EvDumps (v : value) (encoded : list byte)
| EvIoctl (fd operation : Z) (submitted : NsmMessage)
          (request_bytes : list byte) (errno : option Z) (returned : NsmMessage)
| EvLoads (data : list byte) (decoded : exn + value).

Definition is_ioctl (e : event) : bool :=
  match e with EvIoctl _ _ _ _ _ _ => true | _ => false end.

Section Transport.

Variable E : Env.

(** The mutable world: memory, the allocator's break (buffers are carved
    off consecutively, so live buffers never overlap), the device's state
    and the log of interactions so far, oldest first. *)
Record World : Type := {
  mem : memory;
  brk : Z;
  kernel : kernel_state E;
  trace : list event
}.

(** A Python computation: it ends in an exception or a result, and leaves
    a world behind either way. *)
Definition M (A : Type) : Type := World -> (exn + A) * World.

Definition ret {A : Type} (a : A) : M A := fun w => (inr a, w).

Definition raise {A : Type} (e : exn) : M A := fun w => (inl e, w).

Definition bind {A B : Type} (m : M A) (k : A -> M B) : M B :=
  fun w =>
    match m w with
    | (inr a, w') => k a w'
    | (inl e, w') => (inl e, w')
    end.

(** A pure step that may raise. *)
Definition lift {A : Type} (r : exn + A) : M A := fun w => (r, w).

Definition log (e : event) : M unit :=
  fun w => (inr tt, {| mem := mem w; brk := brk w; kernel := kernel w;
                       trace := trace w ++ [e] |}).

End Transport.

Arguments mem {E} _.
Arguments brk {E} _.
Arguments kernel {E} _.
Arguments trace {E} _.
Arguments ret {E A} _ _.
Arguments raise {E A} _ _.
Arguments bind {E A B} _ _ _.
Arguments lift {E A} _ _.
Arguments log {E} _ _.

Declare Scope py_scope.
Delimit Scope py_scope with py.
Notation "x <- m ;; k" := (bind m (fun x => k))
  (at level 61, m at next level, right associativity) : py_scope.
Notation "m ;; k" := (bind m (fun _ => k))
  (at level 61, right associativity) : py_scope.

(** ** The library calls the module makes *)

Section Runtime.

Variable E : Env.
Local Open Scope py_scope.

(** [len(b)] of a bytes object. *)
Definition len (bs : list byte) : Z := Z.of_nat (List.length bs).

(** [cbor2.dumps(v)] *)
Definition cbor2_dumps (v : value) : M E (list byte) :=
  let encoded := dumps E v in
  log (EvDumps v encoded) ;; ret encoded.

(** [cbor2.loads(data)] *)
Definition cbor2_loads (data : list byte) : M E value :=
  let decoded := loads E data in
  log (EvLoads data decoded) ;; lift decoded.

(** A fresh, zero-filled block of [n] bytes. *)
Definition allocate (n : Z) : M E Z :=
  fun w =>
    (inr (brk w),
     {| mem := store_bytes (mem w) (brk w) (repeat x00 (Z.to_nat n));
        brk := brk w + Z.max 0 n;
        kernel := kernel w;
        trace := trace w |}).

(** Overwrite memory from [a] on. *)
Definition store (a : Z) (bs : list byte) : M E unit :=
  fun w =>
    (inr tt,
     {| mem := store_bytes (mem w) a bs; brk := brk w;
        kernel := kernel w; trace := trace w |}).

(** [ctypes.create_string_buffer(init, size)]: an array of [size] chars
    whose [value] is set to [init]; the assignment refuses an [init]
    longer than the array. *)
Definition create_string_buffer (init : list byte) (size : Z) : M E CArray :=
  a <- allocate size ;;
  if len init >? size then raise (ValueError "byte string too long")
  else store a init ;; ret {| address := a; array_len := size |}.

(** [(n * ctypes.c_uint8)()]: a zero-filled array of [n] bytes. *)
Definition c_uint8_array (n : Z) : M E CArray :=
  a <- allocate (n * CTypes.sizeof CTypes.c_uint8) ;;
  ret {| address := a; array_len := n |}.

(** [fcntl.ioctl(file_handle, operation, nsm_message)] with a mutable
    structure as argument.  A closed file object has no descriptor
    ([ValueError]).  Otherwise the kernel runs; what it wrote is copied
    back into the structure, and a failed call raises [OSError]. *)
Definition fcntl_ioctl (file_handle : TextIO) (operation : Z)
    (nsm_message : NsmMessage) : M E NsmMessage :=
  if closed file_handle then raise (ValueError "I/O operation on closed file")
  else
    fun w =>
      let request_bytes :=
        load_bytes (mem w) (iov_base (request nsm_message))
                   (iov_len (request nsm_message)) in
      let r := sys_ioctl E (kernel w) (fileno file_handle) operation
                         nsm_message (mem w) in
      let w' := {| mem := ret_memory r; brk := brk w; kernel := ret_kernel r;
                   trace := trace w ++ [EvIoctl (fileno file_handle) operation
                                                nsm_message request_bytes
                                                (ret_errno r) (ret_message r)] |} in
      match ret_errno r with
      | Some errno => (inl (OSError errno), w')
      | None => (inr (ret_message r), w')
      end.

End Runtime.

(** ** aws_nsm_interface/__init__.py *)

Definition NSM_DEV_FILE : string := "/dev/nsm".
Definition NSM_IOCTL_MAGIC : Z := 0x0A.
Definition NSM_IOCTL_NUMBER : Z := 0x00.
Definition NSM_REQUEST_MAX_SIZE : Z := 0x1000.
Definition NSM_RESPONSE_MAX_SIZE : Z := 0x3000.

(** [close_nsm_device(file_handle)]: [file_handle.close()].  The file
    object is mutated in the source; here the closed object is returned. *)
Definition close_nsm_device (file_handle : TextIO) : TextIO :=
  {| fileno := fileno file_handle; closed := true |}.

Section Interface.

Variable E : Env.
Local Open Scope py_scope.

(** [_prepare_nsm_message_iovecs]: refuse an oversized request, else point
    the two descriptors of the message at the two buffers.  The message
    is mutated in place in the source; here the new message is returned. *)
Definition _prepare_nsm_message_iovecs (nsm_message : NsmMessage)
    (request_buffer response_buffer : CArray) : M E NsmMessage :=
  if array_len request_buffer >? NSM_REQUEST_MAX_SIZE
  then raise (ValueError "Request too large.")
  else
    let request_buffer_pointer := address request_buffer in
    let response_buffer_pointer := address response_buffer in
    let nsm_message :=
      {| request := {| iov_base := request_buffer_pointer;
                       iov_len := array_len request_buffer |};
         response := response nsm_message |} in
    let nsm_message :=
      {| request := request nsm_message;
         response := {| iov_base := response_buffer_pointer;
                        iov_len := array_len response_buffer |} |} in
    ret nsm_message.

(** [_execute_ioctl]: compute the request code from the size of the
    control structure and issue the call.  Returns the message as the
    kernel left it. *)
Definition _execute_ioctl (file_handle : TextIO) (nsm_message : NsmMessage)
  : M E NsmMessage :=
  operation <- lift (ioctl_opt.IOC
                       (Z.lor ioctl_opt.IOC_READ ioctl_opt.IOC_WRITE)
                       NSM_IOCTL_MAGIC
                       NSM_IOCTL_NUMBER
                       (CTypes.sizeof (NsmMessage_layout (pointer_size E)))) ;;
  fcntl_ioctl E file_handle operation nsm_message.

(** [_decode_response]: copy [response.iov_len] bytes from
    [response.iov_base] into a fresh bytearray and decode that. *)
Definition _decode_response (nsm_message : NsmMessage) : M E value :=
  fun w =>
    let cbor_data :=
      load_bytes (mem w) (iov_base (response nsm_message))
                 (iov_len (response nsm_message)) in
    cbor2_loads E cbor_data w.

End Interface.

(** *** The seven commands

    Every command repeats the same buffer set-up in its own body (the
    source does not factor it out, to keep the buffers alive during the
    call); the embedding repeats it likewise. *)

Section Commands.

Variable E : Env.
Local Open Scope py_scope.

(** [{nsm_key: fields}] *)
Definition tagged (nsm_key : string) (fields : list (value * value)) : value :=
  VDict [(VStr nsm_key, VDict fields)].

(** An optional bytes argument: the bytes, or [None] when omitted. *)
Definition optional_bytes (o : option (list byte)) : value :=
  match o with Some bs => VBytes bs | None => VNone end.

(** [lock_pcr(file_handle, index)] *)
Definition lock_pcr (file_handle : TextIO) (index : Z) : M E bool :=
  let nsm_key := "LockPCR" in
  request_data <- cbor2_dumps E (tagged nsm_key [(VStr "index", VInt index)]) ;;
  request_buffer <- create_string_buffer E request_data (len request_data) ;;
  response_buffer <- c_uint8_array E NSM_RESPONSE_MAX_SIZE ;;
  let nsm_message := NsmMessage_new in
  nsm_message <- _prepare_nsm_message_iovecs E nsm_message request_buffer response_buffer ;;
  nsm_message <- _execute_ioctl E file_handle nsm_message ;;
  decoded_response <- _decode_response E nsm_message ;;
  is_error <- (if Py.isinstance_dict decoded_response
               then lift (Py.contains "Error" decoded_response)
               else ret false) ;;
  if is_error
  then error <- lift (Py.get decoded_response "Error") ;; raise (IoctlError error)
  else ret true.

(** [lock_pcrs(file_handle, lock_range)] *)
Definition lock_pcrs (file_handle : TextIO) (lock_range : Z) : M E bool :=
  let nsm_key := "LockPCRs" in
  request_data <- cbor2_dumps E (tagged nsm_key [(VStr "range", VInt lock_range)]) ;;
  request_buffer <- create_string_buffer E request_data (len request_data) ;;
  response_buffer <- c_uint8_array E NSM_RESPONSE_MAX_SIZE ;;
  let nsm_message := NsmMessage_new in
  nsm_message <- _prepare_nsm_message_iovecs E nsm_message request_buffer response_buffer ;;
  nsm_message <- _execute_ioctl E file_handle nsm_message ;;
  decoded_response <- _decode_response E nsm_message ;;
  is_error <- (if Py.isinstance_dict decoded_response
               then lift (Py.contains "Error" decoded_response)
               else ret false) ;;
  if is_error
  then error <- lift (Py.get decoded_response "Error") ;; raise (IoctlError error)
  else ret true.

(** [describe_pcr(file_handle, index)] *)
Definition describe_pcr (file_handle : TextIO) (index : Z) : M E value :=
  let nsm_key := "DescribePCR" in
  request_data <- cbor2_dumps E (tagged nsm_key [(VStr "index", VInt index)]) ;;
  request_buffer <- create_string_buffer E request_data (len request_data) ;;
  response_buffer <- c_uint8_array E NSM_RESPONSE_MAX_SIZE ;;
  let nsm_message := NsmMessage_new in
  nsm_message <- _prepare_nsm_message_iovecs E nsm_message request_buffer response_buffer ;;
  nsm_message <- _execute_ioctl E file_handle nsm_message ;;
  decoded_response <- _decode_response E nsm_message ;;
  present <- lift (Py.contains nsm_key decoded_response) ;;
  if negb present
  then error <- lift (Py.get decoded_response "Error") ;; raise (IoctlError error)
  else lift (Py.get decoded_response nsm_key).

(** [get_attestation_doc(file_handle, user_data=None, nonce=None,
    public_key=None)] *)
Definition get_attestation_doc (file_handle : TextIO)
    (user_data nonce public_key : option (list byte)) : M E value :=
  let nsm_key := "Attestation" in
  request_data <- cbor2_dumps E (tagged nsm_key
                    [(VStr "user_data", optional_bytes user_data);
                     (VStr "nonce", optional_bytes nonce);
                     (VStr "public_key", optional_bytes public_key)]) ;;
  request_buffer <- create_string_buffer E request_data (len request_data) ;;
  response_buffer <- c_uint8_array E NSM_RESPONSE_MAX_SIZE ;;
  let nsm_message := NsmMessage_new in
  nsm_message <- _prepare_nsm_message_iovecs E nsm_message request_buffer response_buffer ;;
  nsm_message <- _execute_ioctl E file_handle nsm_message ;;
  decoded_response <- _decode_response E nsm_message ;;
  present <- lift (Py.contains nsm_key decoded_response) ;;
  if negb present
  then error <- lift (Py.get decoded_response "Error") ;; raise (IoctlError error)
  else lift (Py.get decoded_response nsm_key).

(** [extend_pcr(file_handle, index, data)] *)
Definition extend_pcr (file_handle : TextIO) (index : Z) (data : list byte)
  : M E value :=
  let nsm_key := "ExtendPCR" in
  request_data <- cbor2_dumps E (tagged nsm_key
                    [(VStr "index", VInt index); (VStr "data", VBytes data)]) ;;
  request_buffer <- create_string_buffer E request_data (len request_data) ;;
  response_buffer <- c_uint8_array E NSM_RESPONSE_MAX_SIZE ;;
  let nsm_message := NsmMessage_new in
  nsm_message <- _prepare_nsm_message_iovecs E nsm_message request_buffer response_buffer ;;
  nsm_message <- _execute_ioctl E file_handle nsm_message ;;
  decoded_response <- _decode_response E nsm_message ;;
  present <- lift (Py.contains nsm_key decoded_response) ;;
  if negb present
  then error <- lift (Py.get decoded_response "Error") ;; raise (IoctlError error)
  else lift (Py.get decoded_response nsm_key).

(** [describe_nsm(file_handle)] *)
Definition describe_nsm (file_handle : TextIO) : M E value :=
  let nsm_key := "DescribeNSM" in
  request_data <- cbor2_dumps E (VStr nsm_key) ;;
  request_buffer <- create_string_buffer E request_data (len request_data) ;;
  response_buffer <- c_uint8_array E NSM_RESPONSE_MAX_SIZE ;;
  let nsm_message := NsmMessage_new in
  nsm_message <- _prepare_nsm_message_iovecs E nsm_message request_buffer response_buffer ;;
  nsm_message <- _execute_ioctl E file_handle nsm_message ;;
  decoded_response <- _decode_response E nsm_message ;;
  present <- lift (Py.contains nsm_key decoded_response) ;;
  if negb present
  then error <- lift (Py.get decoded_response "Error") ;; raise (IoctlError error)
  else lift (Py.get decoded_response nsm_key).

(** The default of [get_random]'s [length] parameter. *)
Definition get_random_default_length : Z := 32.

(** [get_random(file_handle, length=32)]; [None] stands for a call that
    leaves [length] out.  The two [.get] calls run before the test for
    the command's tag. *)
Definition get_random (file_handle : TextIO) (length : option Z) : M E value :=
  let length := match length with
                | Some l => l
                | None => get_random_default_length
                end in
  if (length <? 1) || (length >? 256)
  then raise (ValueError "GetRandom supports length between 1 and 256 inclusive.")
  else
    let nsm_key := "GetRandom" in
    request_data <- cbor2_dumps E (VStr nsm_key) ;;
    request_buffer <- create_string_buffer E request_data (len request_data) ;;
    response_buffer <- c_uint8_array E NSM_RESPONSE_MAX_SIZE ;;
    let nsm_message := NsmMessage_new in
    nsm_message <- _prepare_nsm_message_iovecs E nsm_message request_buffer response_buffer ;;
    nsm_message <- _execute_ioctl E file_handle nsm_message ;;
    decoded_response <- _decode_response E nsm_message ;;
    payload <- lift (Py.get decoded_response nsm_key) ;;
    random_bytes <- lift (Py.get payload "random") ;;
    present <- lift (Py.contains nsm_key decoded_response) ;;
    if negb present
    then error <- lift (Py.get decoded_response "Error") ;; raise (IoctlError error)
    else lift (Py.slice_to random_bytes length).

End Commands.

(** ** A concrete payload codec

    The definite-length core of CBOR (RFC 8949) over [value], as
    [cbor2.dumps] writes it (shortest heads, map entries in insertion
    order, integers past 64 bits as bignums) and as [cbor2.loads] reads it
    back (one item, trailing bytes ignored).  It instantiates the
    environment for the closed examples; the theorems hold for any
    codec.  Outside the model: floats, other tags, indefinite lengths and
    text beyond code point 255, which this decoder refuses. *)

Module Cbor.

Definition byte_of_Z (n : Z) : byte :=
  match Byte.of_N (Z.to_N (n mod 256)) with Some b => b | None => x00 end.

Definition Z_of_byte (b : byte) : Z := Z.of_N (Byte.to_N b).

(** The low [n] bytes of [x], most significant first. *)
Fixpoint be_bytes (n : nat) (x : Z) : list byte :=
  match n with
  | O => []
  | S n' => be_bytes n' (x / 256) ++ [byte_of_Z x]
  end.

(** The initial byte of an item and its argument, in the shortest form. *)
Definition head (major arg : Z) : list byte :=
  if arg <? 24 then [byte_of_Z (major * 32 + arg)]
  else if arg <? 256 then byte_of_Z (major * 32 + 24) :: be_bytes 1 arg
  else if arg <? 65536 then byte_of_Z (major * 32 + 25) :: be_bytes 2 arg
  else if arg <? 4294967296 then byte_of_Z (major * 32 + 26) :: be_bytes 4 arg
  else byte_of_Z (major * 32 + 27) :: be_bytes 8 arg.

(** UTF-8 of a str whose characters are the code points 0..255. *)
Fixpoint utf8 (s : string) : list byte :=
  match s with
  | EmptyString => []
  | String c s' =>
      let n := Z.of_N (N_of_ascii c) in
      if n <? 128 then byte_of_Z n :: utf8 s'
      else byte_of_Z (192 + n / 64) :: byte_of_Z (128 + n mod 64) :: utf8 s'
  end.

Definition encode_int (n : Z) : list byte :=
  if (n >=? 18446744073709551616) || (n <? -18446744073709551616) then
    let tag := if n >=? 0 then 2 else 3 in
    let m := if n >=? 0 then n else - n - 1 in
    let payload := be_bytes (Z.to_nat ((Z.log2 m + 1 + 7) / 8)) m in
    head 6 tag ++ head 2 (Z.of_nat (List.length payload)) ++ payload
  else if n >=? 0 then head 0 n
  else head 1 (- (n + 1)).

Fixpoint encode (v : value) : list byte :=
  match v with
  | VNone => [xf6]
  | VBool false => [xf4]
  | VBool true => [xf5]
  | VInt n => encode_int n
  | VBytes bs => head 2 (Z.of_nat (List.length bs)) ++ bs
  | VStr s => let u := utf8 s in head 3 (Z.of_nat (List.length u)) ++ u
  | VList xs =>
      head 4 (Z.of_nat (List.length xs)) ++
      (fix items (l : list value) : list byte :=
         match l with [] => [] | x :: r => encode x ++ items r end) xs
  | VDict kvs =>
      head 5 (Z.of_nat (List.length kvs)) ++
      (fix entries (l : list (value * value)) : list byte :=
         match l with
         | [] => []
         | (k, x) :: r => encode k ++ encode x ++ entries r
         end) kvs
  end.

Definition dumps (v : value) : list byte := encode v.

(** Read [n] bytes as a big-endian number. *)
Definition read_be (n : nat) (bs : list byte) : option (Z * list byte) :=
  if (List.length bs <? n)%nat then None
  else Some (fold_left (fun acc b => acc * 256 + Z_of_byte b) (firstn n bs) 0,
             skipn n bs).

(** The argument of a head with additional information [info]. *)
Definition read_arg (info : Z) (bs : list byte) : option (Z * list byte) :=
  if info <? 24 then Some (info, bs)
  else if info =? 24 then read_be 1 bs
  else if info =? 25 then read_be 2 bs
  else if info =? 26 then read_be 4 bs
  else if info =? 27 then read_be 8 bs
  else None.

(** Split off the first [n] bytes, when there are that many. *)
Definition take (n : Z) (bs : list byte) : option (list byte * list byte) :=
  if n <=? Z.of_nat (List.length bs)
  then Some (firstn (Z.to_nat n) bs, skipn (Z.to_nat n) bs)
  else None.

Fixpoint unutf8 (bs : list byte) : option string :=
  match bs with
  | [] => Some EmptyString
  | b :: rest =>
      let n := Z_of_byte b in
      if n <? 128 then
        option_map (String (ascii_of_N (Z.to_N n))) (unutf8 rest)
      else if (194 <=? n) && (n <=? 195) then
        match rest with
        | b2 :: rest' =>
            let m := Z_of_byte b2 in
            if (128 <=? m) && (m <? 192)
            then option_map (String (ascii_of_N (Z.to_N ((n - 192) * 64 + (m - 128)))))
                            (unutf8 rest')
            else None
        | [] => None
        end
      else None
  end.

Fixpoint decode_item (fuel : nat) (bs : list byte) : option (value * list byte) :=
  match fuel with
  | O => None
  | S fuel =>
      match bs with
      | [] => None
      | b :: rest =>
          let major := Z_of_byte b / 32 in
          let info := Z_of_byte b mod 32 in
          if major =? 7 then
            if info =? 20 then Some (VBool false, rest)
            else if info =? 21 then Some (VBool true, rest)
            else if info =? 22 then Some (VNone, rest)
            else None
          else
            match read_arg info rest with
            | None => None
            | Some (arg, rest) =>
                if major =? 0 then Some (VInt arg, rest)
                else if major =? 1 then Some (VInt (-1 - arg), rest)
                else if major =? 2 then
                  match take arg rest with
                  | Some (payload, rest) => Some (VBytes payload, rest)
                  | None => None
                  end
                else if major =? 3 then
                  match take arg rest with
                  | Some (payload, rest) =>
                      option_map (fun s => (VStr s, rest)) (unutf8 payload)
                  | None => None
                  end
                else if major =? 4 then
                  match decode_items fuel arg rest with
                  | Some (xs, rest) => Some (VList xs, rest)
                  | None => None
                  end
                else if major =? 5 then
                  match decode_entries fuel arg rest with
                  | Some (kvs, rest) => Some (VDict kvs, rest)
                  | None => None
                  end
                else
                  match decode_item fuel rest with
                  | Some (VBytes payload, rest) =>
                      let m := fold_left (fun acc b => acc * 256 + Z_of_byte b)
                                         payload 0 in
                      if arg =? 2 then Some (VInt m, rest)
                      else if arg =? 3 then Some (VInt (-1 - m), rest)
                      else None
                  | _ => None
                  end
            end
      end
  end
with decode_items (fuel : nat) (n : Z) (bs : list byte)
  : option (list value * list byte) :=
  match fuel with
  | O => None
  | S fuel =>
      if n <=? 0 then Some ([], bs)
      else
        match decode_item fuel bs with
        | None => None
        | Some (x, rest) =>
            match decode_items fuel (n - 1) rest with
            | Some (xs, rest) => Some (x :: xs, rest)
            | None => None
            end
        end
  end
with decode_entries (fuel : nat) (n : Z) (bs : list byte)
  : option (list (value * value) * list byte) :=
  match fuel with
  | O => None
  | S fuel =>
      if n <=? 0 then Some ([], bs)
      else
        match decode_item fuel bs with
        | None => None
        | Some (k, rest) =>
            match decode_item fuel rest with
            | None => None
            | Some (x, rest) =>
                match decode_entries fuel (n - 1) rest with
                | Some (kvs, rest) => Some ((k, x) :: kvs, rest)
                | None => None
                end
            end
        end
  end.

(** Each step consumes fuel and every item at least one byte, so twice the
    input length (and two) is fuel enough. *)
Definition loads (bs : list byte) : exn + value :=
  match decode_item (2 * List.length bs + 2) bs with
  | Some (v, _) => inr v
  | None => inl CBORDecodeError
  end.

End Cbor.

(** ** A scripted device

    The kernel side for the closed examples: its state is the list of
    answers still to give.  An answer either fails the call with an error
    number, or writes a reply at the response descriptor's base, followed
    by residue bytes the device leaves in the rest of the buffer, and
    shrinks the descriptor's length to the reply's length. *)

Inductive answer : Type :=
| Fail (errno : Z)
| Reply (reply residue : list byte).

Definition scripted_ioctl (k : list answer) (fd operation : Z)
    (message : NsmMessage) (m : memory) : ioctl_return (list answer) :=
  match k with
  | [] =>
      {| ret_errno := Some 19; ret_message := message; ret_memory := m;
         ret_kernel := [] |}
  | Fail errno :: k' =>
      {| ret_errno := Some errno; ret_message := message; ret_memory := m;
         ret_kernel := k' |}
  | Reply reply residue :: k' =>
      if len reply >? iov_len (response message)
      then {| ret_errno := Some 90; ret_message := message; ret_memory := m;
              ret_kernel := k' |}
      else
        {| ret_errno := None;
           ret_message :=
             {| request := request message;
                response := {| iov_base := iov_base (response message);
                               iov_len := len reply |} |};
           ret_memory :=
             store_bytes m (iov_base (response message))
               (firstn (Z.to_nat (iov_len (response message))) (reply ++ residue));
           ret_kernel := k' |}
  end.

(** A 64-bit platform with the CBOR codec and the scripted device. *)
Definition scripted : Env :=
  {| pointer_size := 8;
     dumps := Cbor.dumps;
     loads := Cbor.loads;
     kernel_state := list answer;
     sys_ioctl := scripted_ioctl |}.

(** A fresh process in front of a device with the given script. *)
Definition boot (script : list answer) : World scripted :=
  Build_World scripted (fun _ => x00) 4096 script [].

(** The handle [open_nsm_device] gives while the file is open. *)
Definition nsm_device : TextIO := {| fileno := 3; closed := false |}.

(** *** The scenarios the closed lemmas run *)

(** A device that will answer the next call with the encoding of [v]. *)
Definition answering (v : value) : World scripted :=
  boot [Reply (Cbor.dumps v) []].

(** [{"LockPCR": {}}] *)
Definition lock_answer : value := VDict [(VStr "LockPCR", VDict [])].

(** [{"Error": "InvalidIndex"}] *)
Definition error_answer : value := VDict [(VStr "Error", VStr "InvalidIndex")].

(** [{"lock": False, "data": b"\x00" * 32}] *)
Definition pcr_description : value :=
  VDict [(VStr "lock", VBool false); (VStr "data", VBytes (repeat x00 32))].

(** [{"DescribePCR": {"lock": False, "data": b"\x00" * 32}}] *)
Definition describe_answer : value :=
  VDict [(VStr "DescribePCR", pcr_description)].

(** A mapping with both "Error" and the tag of [describe_pcr]. *)
Definition error_and_tag_answer : value :=
  VDict [(VStr "Error", VStr "InvalidIndex");
         (VStr "DescribePCR", pcr_description)].

(** [{"GetRandom": {"random": b"\x07" * n}}] *)
Definition random_answer (n : nat) : value :=
  VDict [(VStr "GetRandom", VDict [(VStr "random", VBytes (repeat x07 n))])].

(** [{tag: v}] *)
Definition under (tag : string) (v : value) : value := VDict [(VStr tag, v)].

(** [{"Error": "InvalidIndex", tag: v}] *)
Definition error_and (tag : string) (v : value) : value :=
  VDict [(VStr "Error", VStr "InvalidIndex"); (VStr tag, v)].

(** A device whose answer leaves [residue] behind the reply in the
    response buffer. *)
Definition answering_with_residue (v : value) (residue : list byte)
  : World scripted :=
  boot [Reply (Cbor.dumps v) residue].

(** A device that fails the next call with [EACCES]. *)
Definition refusing : World scripted := boot [Fail 13].

(** A device that answers the next call with one byte that starts no
    CBOR item of the codec. *)
Definition garbling : World scripted := boot [Reply [xff] []].

(** The control structure the first call of a fresh process submits for a
    request of [n] bytes, and what the scripted device returns for a
    reply of [k] bytes. *)
Definition first_message (n k : Z) : NsmMessage :=
  {| request := {| iov_base := 4096; iov_len := n |};
     response := {| iov_base := 4096 + n; iov_len := k |} |}.

(** ** Commands as data *)

(** The logical commands: one constructor per public function, with its
    arguments. *)
Inductive command : Type :=
| LockPCR (index : Z)
| LockPCRs (lock_range : Z)
| DescribePCR (index : Z)
| Attestation (user_data nonce public_key : option (list byte))
| ExtendPCR (index : Z) (data : list byte)
| DescribeNSM
| GetRandom (length : option Z).

Section Dispatch.

Variable E : Env.
Local Open Scope py_scope.

(** Run the function of a command; a boolean result is returned as the
    Python [bool] it is. *)
Definition call (file_handle : TextIO) (c : command) : M E value :=
  match c with
  | LockPCR index => b <- lock_pcr E file_handle index ;; ret (VBool b)
  | LockPCRs lock_range => b <- lock_pcrs E file_handle lock_range ;; ret (VBool b)
  | DescribePCR index => describe_pcr E file_handle index
  | Attestation user_data nonce public_key =>
      get_attestation_doc E file_handle user_data nonce public_key
  | ExtendPCR index data => extend_pcr E file_handle index data
  | DescribeNSM => describe_nsm E file_handle
  | GetRandom length => get_random E file_handle length
  end.

(** The events a computation adds to the log when started in [w]. *)
Definition emitted {A : Type} (m : M E A) (w : World E) : list event :=
  skipn (List.length (trace w)) (trace (snd (m w))).

(** The block every command repeats, from the request buffer to the
    decoded response. *)
Definition exchange (file_handle : TextIO) (request_data : list byte)
  : M E value :=
  request_buffer <- create_string_buffer E request_data (len request_data) ;;
  response_buffer <- c_uint8_array E NSM_RESPONSE_MAX_SIZE ;;
  let nsm_message := NsmMessage_new in
  nsm_message <- _prepare_nsm_message_iovecs E nsm_message request_buffer response_buffer ;;
  nsm_message <- _execute_ioctl E file_handle nsm_message ;;
  _decode_response E nsm_message.

(** The closing lines of [lock_pcr] and [lock_pcrs]. *)
Definition classify_lock (decoded_response : value) : M E bool :=
  is_error <- (if Py.isinstance_dict decoded_response
               then lift (Py.contains "Error" decoded_response)
               else ret false) ;;
  if is_error
  then error <- lift (Py.get decoded_response "Error") ;; raise (IoctlError error)
  else ret true.

(** The closing lines of the four commands that return the value under
    their tag. *)
Definition classify_tag (nsm_key : string) (decoded_response : value)
  : M E value :=
  present <- lift (Py.contains nsm_key decoded_response) ;;
  if negb present
  then error <- lift (Py.get decoded_response "Error") ;; raise (IoctlError error)
  else lift (Py.get decoded_response nsm_key).

(** The closing lines of [get_random]. *)
Definition classify_random (length : Z) (decoded_response : value)
  : M E value :=
  let nsm_key := "GetRandom" in
  payload <- lift (Py.get decoded_response nsm_key) ;;
  random_bytes <- lift (Py.get payload "random") ;;
  present <- lift (Py.contains nsm_key decoded_response) ;;
  if negb present
  then error <- lift (Py.get decoded_response "Error") ;; raise (IoctlError error)
  else lift (Py.slice_to random_bytes length).

End Dispatch.

Arguments emitted {E A} _ _.

(** The encoded request of each command as the interoperability table of
    the specification (section 6) lists it. *)
Definition request_table (c : command) : value :=
  match c with
  | LockPCR index =>
      VDict [(VStr "LockPCR", VDict [(VStr "index", VInt index)])]
  | LockPCRs lock_range =>
      VDict [(VStr "LockPCRs", VDict [(VStr "range", VInt lock_range)])]
  | DescribePCR index =>
      VDict [(VStr "DescribePCR", VDict [(VStr "index", VInt index)])]
  | Attestation user_data nonce public_key =>
      VDict [(VStr "Attestation",
              VDict [(VStr "user_data",
                      match user_data with Some b => VBytes b | None => VNone end);
                     (VStr "nonce",
                      match nonce with Some b => VBytes b | None => VNone end);
                     (VStr "public_key",
                      match public_key with Some b => VBytes b | None => VNone end)])]
  | ExtendPCR index data =>
      VDict [(VStr "ExtendPCR",
              VDict [(VStr "index", VInt index); (VStr "data", VBytes data)])]
  | DescribeNSM => VStr "DescribeNSM"
  | GetRandom _ => VStr "GetRandom"
  end.

(** [extend_pcr(0, b"\x00" * 5000)]: a request that encodes to more than
    4096 bytes. *)
Definition oversized : command := ExtendPCR 0 (repeat x00 5000).

(** The length [get_random] works with: the argument, or the default. *)
Definition requested_length (length : option Z) : Z :=
  match length with Some l => l | None => get_random_default_length end.

(** Whether the command gets past its argument validation (only
    [get_random] has one). *)
Definition arguments_valid (c : command) : bool :=
  match c with
  | GetRandom length =>
      negb ((requested_length length <? 1) || (requested_length length >? 256))
  | _ => true
  end.

(** ** Normal forms used by the proofs *)

Section NormalForms.

Variable E : Env.
Local Open Scope py_scope.

(** The two allocations that open every command. *)
Definition buffers (request_data : list byte) : M E (CArray * CArray) :=
  request_buffer <- create_string_buffer E request_data (len request_data) ;;
  response_buffer <- c_uint8_array E NSM_RESPONSE_MAX_SIZE ;;
  ret (request_buffer, response_buffer).

(** The world once both buffers exist. *)
Definition staged (request_data : list byte) (w : World E) : World E :=
  snd (buffers request_data w).

(** The control structure [_prepare_nsm_message_iovecs] builds over them. *)
Definition staged_message (request_data : list byte) (w : World E) : NsmMessage :=
  {| request := {| iov_base := brk w; iov_len := len request_data |};
     response := {| iov_base := brk w + len request_data;
                    iov_len := NSM_RESPONSE_MAX_SIZE |} |}.

(** The request code [_execute_ioctl] computes. *)
Definition operation_code : exn + Z :=
  ioctl_opt.IOC (Z.lor ioctl_opt.IOC_READ ioctl_opt.IOC_WRITE)
                NSM_IOCTL_MAGIC NSM_IOCTL_NUMBER
                (CTypes.sizeof (NsmMessage_layout (pointer_size E))).

(** The lines of a command that follow [_decode_response]. *)
Definition finish (c : command) (decoded_response : value) : M E value :=
  match c with
  | LockPCR _ | LockPCRs _ =>
      b <- classify_lock E decoded_response ;; ret (VBool b)
  | DescribePCR _ => classify_tag E "DescribePCR" decoded_response
  | Attestation _ _ _ => classify_tag E "Attestation" decoded_response
  | ExtendPCR _ _ => classify_tag E "ExtendPCR" decoded_response
  | DescribeNSM => classify_tag E "DescribeNSM" decoded_response
  | GetRandom length => classify_random E (requested_length length) decoded_response
  end.

(** A computation that only computes: it leaves every world as it is and
    its outcome does not depend on the world. *)
Definition pure {A : Type} (m : M E A) : Prop :=
  exists r, forall w, m w = (r, w).

(** The bytes a command hands to the device and the event of encoding
    them. *)
Definition encoded (c : command) : list byte := dumps E (request_table c).

Definition dumped (c : command) : event := EvDumps (request_table c) (encoded c).

(** The ways a call can go: the events it adds, its outcome and the world
    it leaves, stage by stage. *)
Inductive shape (file_handle : TextIO) (c : command) (w : World E)
  : list event -> exn + value -> World E -> Prop :=
| shape_invalid :
    arguments_valid c = false ->
    shape file_handle c w []
      (inl (ValueError "GetRandom supports length between 1 and 256 inclusive."))
      w
| shape_too_large w' :
    arguments_valid c = true ->
    len (encoded c) > NSM_REQUEST_MAX_SIZE ->
    shape file_handle c w [dumped c]
      (inl (ValueError "Request too large.")) w'
| shape_assertion e w' :
    arguments_valid c = true ->
    len (encoded c) <= NSM_REQUEST_MAX_SIZE ->
    operation_code = inl e ->
    shape file_handle c w [dumped c] (inl e) w'
| shape_closed operation w' :
    arguments_valid c = true ->
    len (encoded c) <= NSM_REQUEST_MAX_SIZE ->
    operation_code = inr operation ->
    closed file_handle = true ->
    shape file_handle c w [dumped c]
      (inl (ValueError "I/O operation on closed file")) w'
| shape_oserror operation submitted errno returned w' :
    arguments_valid c = true ->
    len (encoded c) <= NSM_REQUEST_MAX_SIZE ->
    operation_code = inr operation ->
    closed file_handle = false ->
    iov_len (request submitted) = len (encoded c) ->
    iov_len (response submitted) = NSM_RESPONSE_MAX_SIZE ->
    shape file_handle c w
      [dumped c;
       EvIoctl (fileno file_handle) operation submitted (encoded c)
               (Some errno) returned]
      (inl (OSError errno)) w'
| shape_decoded operation submitted returned w' :
    arguments_valid c = true ->
    len (encoded c) <= NSM_REQUEST_MAX_SIZE ->
    operation_code = inr operation ->
    closed file_handle = false ->
    iov_len (request submitted) = len (encoded c) ->
    iov_len (response submitted) = NSM_RESPONSE_MAX_SIZE ->
    let data := load_bytes (mem w') (iov_base (response returned))
                           (iov_len (response returned)) in
    shape file_handle c w
      [dumped c;
       EvIoctl (fileno file_handle) operation submitted (encoded c)
               None returned;
       EvLoads data (loads E data)]
      (match loads E data with
       | inl e => inl e
       | inr decoded_response => fst (finish c decoded_response w')
       end)
      w'.

(** What the kernel returns when command [c], called in world [w] on
    [file_handle], submits its control structure with request code
    [operation]. *)
Definition kernel_reply (file_handle : TextIO) (c : command) (w : World E)
    (operation : Z) : ioctl_return (kernel_state E) :=
  sys_ioctl E (kernel w) (fileno file_handle) operation
            (staged_message (encoded c) w)
            (mem (staged (encoded c) w)).

(** The bytes under the response descriptor as the kernel returned it. *)
Definition response_bytes (k : ioctl_return (kernel_state E)) : list byte :=
  load_bytes (ret_memory k) (iov_base (response (ret_message k)))
             (iov_len (response (ret_message k))).

(** The surroundings serve command [c] with the decoded response [r]: the
    arguments are valid, the encoded request fits, the handle is open,
    the request code is valid, the kernel reports no error, and the codec
    decodes the bytes the kernel left to [r]. *)
Definition served (file_handle : TextIO) (c : command) (w : World E)
    (r : value) : Prop :=
  arguments_valid c = true /\
  len (encoded c) <= NSM_REQUEST_MAX_SIZE /\
  closed file_handle = false /\
  exists operation,
    operation_code = inr operation /\
    ret_errno (kernel_reply file_handle c w operation) = None /\
    loads E (response_bytes (kernel_reply file_handle c w operation)) = inr r.

End NormalForms.

Arguments pure {E A} _.

Definition is_dumps (e : event) : bool :=
  match e with EvDumps _ _ => true | _ => false end.

(** The two commands that answer [True]. *)
Definition is_lock (c : command) : bool :=
  match c with LockPCR _ | LockPCRs _ => true | _ => false end.

(** The four commands that return the value under their own tag, with
    that tag. *)
Definition returns_tag (c : command) : option string :=
  match c with
  | DescribePCR _ => Some "DescribePCR"
  | Attestation _ _ _ => Some "Attestation"
  | ExtendPCR _ _ => Some "ExtendPCR"
  | DescribeNSM => Some "DescribeNSM"
  | LockPCR _ | LockPCRs _ | GetRandom _ => None
  end.

(** ** Lists, memory *)

Lemma skipn_length_app {A : Type} (l post : list A) :
  skipn (List.length l) (l ++ post) = post.
Proof. induction l as [|x l IH]; simpl; [reflexivity | exact IH]. Qed.

Lemma len_nonneg (bs : list byte) : 0 <= len bs.
Proof. unfold len; lia. Qed.

Lemma load_bytes_length (m : memory) (a n : Z) :
  List.length (load_bytes m a n) = Z.to_nat n.
Proof. unfold load_bytes. rewrite length_map, length_seq. reflexivity. Qed.

(** Reading depends on the bytes of the range read, and on nothing else. *)
Lemma load_bytes_ext (m1 m2 : memory) (a n : Z) :
  (forall x, a <= x < a + n -> m1 x = m2 x) ->
  load_bytes m1 a n = load_bytes m2 a n.
Proof.
  intros H. unfold load_bytes. apply map_ext_in.
  intros i Hi. apply in_seq in Hi. apply H. lia.
Qed.

Lemma map_nth_seq {A : Type} (d : A) (l : list A) :
  map (fun i => nth i l d) (seq 0 (List.length l)) = l.
Proof.
  induction l as [|x l IH]; simpl; [reflexivity |].
  f_equal. rewrite <- seq_shift, map_map. exact IH.
Qed.

Lemma load_store_same (m : memory) (a : Z) (bs : list byte) :
  load_bytes (store_bytes m a bs) a (len bs) = bs.
Proof.
  unfold load_bytes, len. rewrite Nat2Z.id.
  rewrite <- (map_nth_seq x00 bs) at 2.
  apply map_ext_in. intros i Hi. apply in_seq in Hi.
  unfold store_bytes.
  replace ((a <=? a + Z.of_nat i) && (a + Z.of_nat i <? a + Z.of_nat (List.length bs)))
    with true by (symmetry; apply andb_true_iff; split;
                  [apply Z.leb_le | apply Z.ltb_lt]; lia).
  replace (a + Z.of_nat i - a) with (Z.of_nat i) by lia.
  rewrite Nat2Z.id. reflexivity.
Qed.

Lemma load_store_other (m : memory) (a b n : Z) (bs : list byte) :
  a + n <= b \/ b + len bs <= a ->
  load_bytes (store_bytes m b bs) a n = load_bytes m a n.
Proof.
  intros H. apply load_bytes_ext. intros x Hx. unfold store_bytes.
  destruct ((b <=? x) && (x <? b + Z.of_nat (List.length bs))) eqn:Hin;
    [| reflexivity].
  apply andb_true_iff in Hin. destruct Hin as [H1 H2].
  apply Z.leb_le in H1. apply Z.ltb_lt in H2. unfold len in H. lia.
Qed.

(** ** The shared block *)

Section ExchangeFacts.

Variable E : Env.

Lemma bind_assoc {A B C : Type} (m : M E A) (f : A -> M E B) (g : B -> M E C)
    (w : World E) :
  bind (bind m f) g w = bind m (fun a => bind (f a) g) w.
Proof. unfold bind. destruct (m w) as [[e | a] w']; reflexivity. Qed.

Lemma bind_ext {A B : Type} (m : M E A) (f g : A -> M E B) (w : World E) :
  (forall a w', f a w' = g a w') -> bind m f w = bind m g w.
Proof.
  intros H. unfold bind. destruct (m w) as [[e | a] w']; [reflexivity | apply H].
Qed.

(** Both allocations succeed; the request buffer sits at the old break and
    the response buffer right behind it. *)
Lemma buffers_eq (request_data : list byte) (w : World E) :
  buffers E request_data w =
  (inr ({| address := brk w; array_len := len request_data |},
        {| address := brk w + len request_data;
           array_len := NSM_RESPONSE_MAX_SIZE |}),
   staged E request_data w).
Proof.
  unfold staged, buffers, create_string_buffer, c_uint8_array, allocate, store,
    bind, ret. cbn [fst snd brk].
  rewrite Z.gtb_ltb, Z.ltb_irrefl. cbn [fst snd brk].
  rewrite (Z.max_r 0 (len request_data)) by apply len_nonneg.
  reflexivity.
Qed.

Lemma staged_trace (request_data : list byte) (w : World E) :
  trace (staged E request_data w) = trace w.
Proof.
  unfold staged, buffers, create_string_buffer, c_uint8_array, allocate, store,
    bind, ret. cbn [fst snd brk].
  rewrite Z.gtb_ltb, Z.ltb_irrefl. reflexivity.
Qed.

Lemma staged_kernel (request_data : list byte) (w : World E) :
  kernel (staged E request_data w) = kernel w.
Proof.
  unfold staged, buffers, create_string_buffer, c_uint8_array, allocate, store,
    bind, ret. cbn [fst snd brk].
  rewrite Z.gtb_ltb, Z.ltb_irrefl. reflexivity.
Qed.

(** The request buffer holds the payload, byte for byte. *)
Lemma staged_request (request_data : list byte) (w : World E) :
  load_bytes (mem (staged E request_data w)) (brk w) (len request_data)
  = request_data.
Proof.
  unfold staged, buffers, create_string_buffer, c_uint8_array, allocate, store,
    bind, ret. cbn [fst snd brk].
  rewrite Z.gtb_ltb, Z.ltb_irrefl. cbn [fst snd brk mem].
  rewrite load_store_other by (left; pose proof (len_nonneg request_data); lia).
  apply load_store_same.
Qed.

(** What the block does, step by step. *)
Lemma exchange_eq (file_handle : TextIO) (request_data : list byte) (w : World E) :
  exchange E file_handle request_data w =
  let w1 := staged E request_data w in
  let message := staged_message E request_data w in
  if len request_data >? NSM_REQUEST_MAX_SIZE
  then (inl (ValueError "Request too large."), w1)
  else
    match operation_code E with
    | inl e => (inl e, w1)
    | inr operation =>
        if closed file_handle
        then (inl (ValueError "I/O operation on closed file"), w1)
        else
          let r := sys_ioctl E (kernel w) (fileno file_handle) operation
                             message (mem w1) in
          let submitted :=
            EvIoctl (fileno file_handle) operation message request_data
                    (ret_errno r) (ret_message r) in
          match ret_errno r with
          | Some errno =>
              (inl (OSError errno),
               Build_World E (ret_memory r) (brk w1) (ret_kernel r)
                           (trace w ++ [submitted]))
          | None =>
              let data :=
                load_bytes (ret_memory r)
                           (iov_base (response (ret_message r)))
                           (iov_len (response (ret_message r))) in
              (loads E data,
               Build_World E (ret_memory r) (brk w1) (ret_kernel r)
                           ((trace w ++ [submitted]) ++ [EvLoads data (loads E data)]))
          end
    end.
Proof.
  assert (Hx : exchange E file_handle request_data w =
               bind (buffers E request_data)
                    (fun bufs =>
                       bind (_prepare_nsm_message_iovecs E NsmMessage_new
                                                         (fst bufs) (snd bufs))
                            (fun nsm_message =>
                               bind (_execute_ioctl E file_handle nsm_message)
                                    (_decode_response E))) w).
  { unfold exchange, buffers.
    rewrite bind_assoc. apply bind_ext. intros rb w'.
    rewrite bind_assoc. apply bind_ext. intros resp w''.
    reflexivity. }
  rewrite Hx. unfold bind at 1. rewrite buffers_eq. cbn [fst snd].
  pose proof (staged_trace request_data w) as Ht.
  pose proof (staged_kernel request_data w) as Hk.
  pose proof (staged_request request_data w) as Hr.
  set (w1 := staged E request_data w) in *.
  unfold _prepare_nsm_message_iovecs. cbn [array_len address].
  destruct (len request_data >? NSM_REQUEST_MAX_SIZE) eqn:Hsz.
  - reflexivity.
  - cbn [request response NsmMessage_new].
    unfold bind at 1, ret at 1.
    unfold _execute_ioctl. fold (operation_code E).
    unfold bind at 1, lift at 1.
    destruct (operation_code E) as [e | operation]; [reflexivity |].
    unfold fcntl_ioctl.
    destruct (closed file_handle); [reflexivity |].
    unfold bind. cbn [request response iov_base iov_len].
    rewrite Hr, Hk, Ht.
    fold (staged_message E request_data w).
    destruct (ret_errno (sys_ioctl E (kernel w) (fileno file_handle) operation
                                   (staged_message E request_data w) (mem w1)));
      [reflexivity |].
    unfold _decode_response, cbor2_loads, bind, log, lift. cbn [mem brk kernel trace].
    reflexivity.
Qed.

Ltac align_binds :=
  repeat (rewrite ?bind_assoc; apply bind_ext; intros);
  try reflexivity.

(** A command whose arguments are valid encodes its request, runs the
    shared block and classifies the decoded response. *)
Lemma call_eq (file_handle : TextIO) (c : command) (w : World E) :
  arguments_valid c = true ->
  call E file_handle c w =
  bind (bind (cbor2_dumps E (request_table c)) (exchange E file_handle))
       (finish E c) w.
Proof.
  intros Hv.
  destruct c; cbn [call request_table finish];
    unfold lock_pcr, lock_pcrs, describe_pcr, get_attestation_doc, extend_pcr,
      describe_nsm, get_random, exchange, classify_lock, classify_tag,
      classify_random, tagged, optional_bytes;
    cbv zeta.
  all: try (cbn [arguments_valid] in Hv; unfold requested_length in Hv;
            apply negb_true_iff in Hv; rewrite Hv).
  all: align_binds.
Qed.

(** [get_random] refuses a length outside 1..256 at once. *)
Lemma call_invalid (file_handle : TextIO) (c : command) (w : World E) :
  arguments_valid c = false ->
  call E file_handle c w =
  (inl (ValueError "GetRandom supports length between 1 and 256 inclusive."), w).
Proof.
  intros Hv. destruct c; cbn [arguments_valid] in Hv; try discriminate.
  apply negb_false_iff in Hv. unfold requested_length in Hv.
  cbn [call]. unfold get_random. rewrite Hv. reflexivity.
Qed.

(** *** The classification lines only compute *)

Lemma pure_ret {A : Type} (a : A) : pure (ret (E := E) a).
Proof. exists (inr a). reflexivity. Qed.

Lemma pure_raise {A : Type} (e : exn) : pure (raise (E := E) (A := A) e).
Proof. exists (inl e). reflexivity. Qed.

Lemma pure_lift {A : Type} (r : exn + A) : pure (lift (E := E) r).
Proof. exists r. reflexivity. Qed.

Lemma pure_bind {A B : Type} (m : M E A) (k : A -> M E B) :
  pure m -> (forall a, pure (k a)) -> pure (bind m k).
Proof.
  intros [r Hm] Hk. destruct r as [e | a].
  - exists (inl e). intros w. unfold bind. rewrite Hm. reflexivity.
  - destruct (Hk a) as [r Ha]. exists r. intros w. unfold bind.
    rewrite Hm. apply Ha.
Qed.

Ltac purity :=
  repeat first
    [ apply pure_ret | apply pure_raise | apply pure_lift
    | (apply pure_bind; [| intros ?])
    | match goal with |- pure (if ?b then _ else _) => destruct b end ].

Lemma classify_lock_pure (r : value) : pure (classify_lock E r).
Proof. unfold classify_lock. purity. Qed.

Lemma classify_tag_pure (nsm_key : string) (r : value) :
  pure (classify_tag E nsm_key r).
Proof. unfold classify_tag. purity. Qed.

Lemma classify_random_pure (length : Z) (r : value) :
  pure (classify_random E length r).
Proof. unfold classify_random. purity. Qed.

Lemma finish_pure (c : command) (r : value) : pure (finish E c r).
Proof.
  destruct c; cbn [finish];
    first [ apply classify_tag_pure | apply classify_random_pure
          | apply pure_bind; [apply classify_lock_pure | intros; apply pure_ret] ].
Qed.

Lemma finish_world (c : command) (r : value) (w : World E) :
  snd (finish E c r w) = w.
Proof. destruct (finish_pure c r) as [o H]. rewrite H. reflexivity. Qed.

Lemma finish_outcome (c : command) (r : value) (w w' : World E) :
  fst (finish E c r w) = fst (finish E c r w').
Proof. destruct (finish_pure c r) as [o H]. rewrite !H. reflexivity. Qed.

(** *** Every call has one of the shapes *)

Lemma emitted_app {A : Type} (m : M E A) (w : World E) (post : list event) :
  trace (snd (m w)) = trace w ++ post -> emitted m w = post.
Proof. intros H. unfold emitted. rewrite H. apply skipn_length_app. Qed.

Lemma call_shape (file_handle : TextIO) (c : command) (w : World E) :
  shape E file_handle c w (emitted (call E file_handle c) w)
        (fst (call E file_handle c w)) (snd (call E file_handle c w)).
Proof.
  destruct (arguments_valid c) eqn:Hv.
  2:{ rewrite (emitted_app _ _ []) by
        (rewrite call_invalid by exact Hv; cbn [snd]; symmetry; apply app_nil_r).
      rewrite call_invalid by exact Hv. cbn [fst snd].
      apply shape_invalid. exact Hv. }
  assert (Hc := call_eq file_handle c w Hv).
  rewrite bind_assoc in Hc. unfold bind at 1, cbor2_dumps at 1 in Hc.
  unfold bind at 1, log at 1, ret at 1 in Hc. cbn [mem brk kernel trace] in Hc.
  fold (encoded E c) in Hc. fold (dumped E c) in Hc.
  set (w0 := Build_World E (mem w) (brk w) (kernel w) (trace w ++ [dumped E c])) in *.
  unfold bind at 1 in Hc. rewrite exchange_eq in Hc. cbv zeta in Hc.
  pose proof (staged_trace (encoded E c) w0) as Ht.
  cbn [trace w0] in Ht. change (trace w0) with (trace w ++ [dumped E c]) in Ht.
  destruct (len (encoded E c) >? NSM_REQUEST_MAX_SIZE) eqn:Hsz.
  { rewrite (emitted_app _ _ [dumped E c]) by (rewrite Hc; cbn [snd]; exact Ht).
    rewrite Hc. cbn [fst snd]. apply shape_too_large; [exact Hv |].
    apply Z.gtb_lt in Hsz. lia. }
  assert (Hle : len (encoded E c) <= NSM_REQUEST_MAX_SIZE).
  { rewrite Z.gtb_ltb in Hsz. apply Z.ltb_ge in Hsz. exact Hsz. }
  destruct (operation_code E) as [e | operation] eqn:Hop.
  { rewrite (emitted_app _ _ [dumped E c]) by (rewrite Hc; cbn [snd]; exact Ht).
    rewrite Hc. cbn [fst snd]. apply shape_assertion; assumption. }
  destruct (closed file_handle) eqn:Hcl.
  { rewrite (emitted_app _ _ [dumped E c]) by (rewrite Hc; cbn [snd]; exact Ht).
    rewrite Hc. cbn [fst snd]. eapply shape_closed; eassumption. }
  change (trace w0) with (trace w ++ [dumped E c]) in Hc.
  change (kernel w0) with (kernel w) in Hc.
  change (brk w0) with (brk w) in Hc.
  set (r := sys_ioctl E (kernel w) (fileno file_handle) operation
                      (staged_message E (encoded E c) w0)
                      (mem (staged E (encoded E c) w0))) in *.
  destruct (ret_errno r) as [errno |] eqn:Herr.
  { rewrite (emitted_app _ _ [dumped E c;
               EvIoctl (fileno file_handle) operation
                       (staged_message E (encoded E c) w0) (encoded E c)
                       (Some errno) (ret_message r)])
      by (rewrite Hc; cbn [snd trace]; rewrite <- app_assoc; reflexivity).
    rewrite Hc. cbn [fst snd].
    apply shape_oserror; try assumption; reflexivity. }
  set (data := load_bytes (ret_memory r) (iov_base (response (ret_message r)))
                          (iov_len (response (ret_message r)))) in *.
  set (w3 := Build_World E (ret_memory r) (brk (staged E (encoded E c) w0))
                         (ret_kernel r)
                         (((trace w ++ [dumped E c]) ++
                          [EvIoctl (fileno file_handle) operation
                                   (staged_message E (encoded E c) w0)
                                   (encoded E c) None (ret_message r)]) ++
                          [EvLoads data (loads E data)])) in *.
  assert (Hfinal : snd (call E file_handle c w) = w3).
  { rewrite Hc. destruct (loads E data) as [e | decoded]; cbn [snd];
      [reflexivity | apply finish_world]. }
  assert (Hres : fst (call E file_handle c w) =
                 match loads E data with
                 | inl e => inl e
                 | inr decoded => fst (finish E c decoded w3)
                 end).
  { rewrite Hc. destruct (loads E data) as [e | decoded]; reflexivity. }
  rewrite (emitted_app _ _ [dumped E c;
             EvIoctl (fileno file_handle) operation
                     (staged_message E (encoded E c) w0) (encoded E c)
                     None (ret_message r);
             EvLoads data (loads E data)])
    by (rewrite Hfinal; cbn [trace w3]; rewrite <- !app_assoc; reflexivity).
  rewrite Hres, Hfinal.
  apply (shape_decoded E file_handle c w operation
                       (staged_message E (encoded E c) w0) (ret_message r) w3);
    try assumption; reflexivity.
Qed.

End ExchangeFacts.

(** ** Classification of the decoded response *)

Ltac no_such_event H :=
  repeat (destruct H as [H | H]; [try discriminate H |]); try contradiction.

Section Classification.

Variable E : Env.

Lemma bind_ret_outcome {A B : Type} (m : M E A) (f : A -> B) (w : World E) :
  fst (bind m (fun a => ret (f a)) w) =
  match fst (m w) with inl e => inl e | inr a => inr (f a) end.
Proof. unfold bind, ret. destruct (m w) as [[e | a] w']; reflexivity. Qed.

Lemma bind_ret_emitted {A B : Type} (m : M E A) (f : A -> B) (w : World E) :
  emitted (bind m (fun a => ret (f a))) w = emitted m w.
Proof.
  unfold emitted, bind, ret. destruct (m w) as [[e | a] w']; reflexivity.
Qed.

(** The decoded response decides the outcome: once [cbor2.loads] has
    returned [r], the call ends as the command's closing lines say. *)
Lemma decoded_outcome (file_handle : TextIO) (c : command) (w : World E)
    (data : list byte) (r : value) :
  In (EvLoads data (inr r)) (emitted (call E file_handle c) w) ->
  fst (call E file_handle c w) = fst (finish E c r w).
Proof.
  intros Hin. pose proof (call_shape E file_handle c w) as S.
  remember (emitted (call E file_handle c) w) as tr.
  remember (fst (call E file_handle c w)) as o.
  remember (snd (call E file_handle c w)) as w'.
  destruct S; try (unfold dumped in Hin; no_such_event Hin; fail).
  unfold dumped in Hin. no_such_event Hin.
  injection Hin as _ Hl. rewrite Hl. apply finish_outcome.
Qed.

(** With [Error] among its keys, a dict is an error for the lock
    commands. *)
Lemma finish_lock_error (c : command) (items : list (value * value))
    (e : value) (w : World E) :
  is_lock c = true ->
  Py.lookup "Error" items = Some e ->
  fst (finish E c (VDict items) w) = inl (IoctlError e).
Proof.
  intros Hc He. destruct c; try discriminate Hc;
    cbn [finish]; unfold classify_lock, bind, lift, raise, ret;
    cbn [Py.isinstance_dict Py.contains Py.get]; rewrite He; reflexivity.
Qed.

(** Anything else is a success for them. *)
Lemma finish_lock_success (c : command) (r : value) (w : World E) :
  is_lock c = true ->
  match r with VDict items => Py.lookup "Error" items = None | _ => True end ->
  fst (finish E c r w) = inr (VBool true).
Proof.
  intros Hc Hr. destruct c; try discriminate Hc;
    cbn [finish]; unfold classify_lock, bind, lift, raise, ret;
    destruct r; cbn [Py.isinstance_dict Py.contains Py.get fst];
    try reflexivity; rewrite Hr; reflexivity.
Qed.

(** The four tag-returning commands on a dict. *)
Lemma finish_tag_dict (c : command) (tag : string)
    (items : list (value * value)) (w : World E) :
  returns_tag c = Some tag ->
  fst (finish E c (VDict items) w) =
  match Py.lookup tag items with
  | Some v => inr v
  | None => inl (IoctlError (match Py.lookup "Error" items with
                             | Some e => e
                             | None => VNone
                             end))
  end.
Proof.
  intros Hc. destruct c; try discriminate Hc; injection Hc as <-;
    cbn [finish]; unfold classify_tag, bind, lift, raise, ret;
    cbn [Py.contains Py.get];
    match goal with |- context [Py.lookup ?k items] =>
      destruct (Py.lookup k items) end; reflexivity.
Qed.

(** ... and on anything that is not a dict: some exception, whatever the
    membership test says. *)
Lemma finish_tag_other (c : command) (tag : string) (r : value) (w : World E) :
  returns_tag c = Some tag ->
  Py.isinstance_dict r = false ->
  exists e, fst (finish E c r w) = inl e.
Proof.
  intros Hc Hr. destruct c; try discriminate Hc;
    cbn [finish]; unfold classify_tag, bind, lift, raise, ret;
    destruct r; try discriminate Hr; cbn [Py.contains Py.get];
    repeat match goal with
           | |- context [if negb ?b then _ else _] => destruct b; cbn [negb]
           end;
    eexists; reflexivity.
Qed.

End Classification.

(** ** The claims about classification *)

Section ClassificationClaims.

Variable E : Env.

(** C7. For [lock_pcr] and [lock_pcrs], a decoded response that is not a
    mapping containing "Error" yields [True], whatever else it is; a
    mapping containing "Error" raises the driver error carrying the value
    stored under "Error". *)
Theorem lock_commands_classification (file_handle : TextIO) (n : Z)
    (w : World E) (data : list byte) (r : value) :
  let verdict :=
    match r with
    | VDict items =>
        match Py.lookup "Error" items with
        | Some e => inl (IoctlError e)
        | None => inr true
        end
    | _ => inr true
    end in
  (In (EvLoads data (inr r)) (emitted (lock_pcr E file_handle n) w) ->
   fst (lock_pcr E file_handle n w) = verdict) /\
  (In (EvLoads data (inr r)) (emitted (lock_pcrs E file_handle n) w) ->
   fst (lock_pcrs E file_handle n w) = verdict).
Proof.
  intros verdict.
  assert (Hv : forall c, is_lock c = true ->
               fst (finish E c r w) =
               match verdict with inl e => inl e | inr b => inr (VBool b) end).
  { intros c Hc. subst verdict. destruct r;
      try (apply finish_lock_success; [exact Hc | exact I]).
    destruct (Py.lookup "Error" items) as [e |] eqn:He.
    - apply finish_lock_error; assumption.
    - apply finish_lock_success; assumption. }
  split; intros Hin.
  - rewrite <- (bind_ret_emitted E _ VBool) in Hin.
    apply (decoded_outcome E file_handle (LockPCR n)) in Hin.
    cbn [call] in Hin. rewrite bind_ret_outcome, Hv in Hin by reflexivity.
    destruct (fst (lock_pcr E file_handle n w)) as [e | b], verdict as [e' | b'];
      congruence.
  - rewrite <- (bind_ret_emitted E _ VBool) in Hin.
    apply (decoded_outcome E file_handle (LockPCRs n)) in Hin.
    cbn [call] in Hin. rewrite bind_ret_outcome, Hv in Hin by reflexivity.
    destruct (fst (lock_pcrs E file_handle n w)) as [e | b], verdict as [e' | b'];
      congruence.
Qed.

End ClassificationClaims.

(** ** What reaches the device *)

Section Submission.

Variable E : Env.

(** Every control operation a call issues carries the request code
    computed from the structure size, the encoded request under the
    request descriptor and the full response capacity; and the call has
    encoded its request before. *)
Lemma submitted_facts (file_handle : TextIO) (c : command) (w : World E)
    (fd operation : Z) (submitted : NsmMessage) (request_bytes : list byte)
    (errno : option Z) (returned : NsmMessage) :
  In (EvIoctl fd operation submitted request_bytes errno returned)
     (emitted (call E file_handle c) w) ->
  request_bytes = encoded E c /\
  iov_len (request submitted) = len (encoded E c) /\
  iov_len (response submitted) = NSM_RESPONSE_MAX_SIZE /\
  operation_code E = inr operation /\
  fd = fileno file_handle /\
  In (dumped E c) (emitted (call E file_handle c) w).
Proof.
  intros Hin. pose proof (call_shape E file_handle c w) as S.
  remember (emitted (call E file_handle c) w) as tr.
  remember (fst (call E file_handle c w)) as o.
  remember (snd (call E file_handle c w)) as w'.
  destruct S; try (unfold dumped in Hin; no_such_event Hin; fail).
  - unfold dumped in Hin at 1.
    destruct Hin as [Hin | [Hin | []]]; [discriminate Hin |].
    injection Hin as <- <- <- <- <- <-.
    repeat split; try assumption. left. reflexivity.
  - unfold dumped in Hin at 1.
    destruct Hin as [Hin | [Hin | [Hin | []]]]; try discriminate Hin.
    injection Hin as <- <- <- <- <- <-.
    repeat split; try assumption. left. reflexivity.
Qed.

(** Whatever a call encodes is its table entry. *)
Lemma dumped_facts (file_handle : TextIO) (c : command) (w : World E)
    (v : value) (enc : list byte) :
  In (EvDumps v enc) (emitted (call E file_handle c) w) ->
  v = request_table c /\ enc = encoded E c /\ arguments_valid c = true.
Proof.
  intros Hin. pose proof (call_shape E file_handle c w) as S.
  remember (emitted (call E file_handle c) w) as tr.
  remember (fst (call E file_handle c w)) as o.
  remember (snd (call E file_handle c w)) as w'.
  destruct S; try contradiction;
    (destruct Hin as [Hin | Hin];
     [unfold dumped in Hin; injection Hin as <- <-; repeat split; assumption
     | no_such_event Hin]).
Qed.

End Submission.

(** ** The claims about the transport *)

Section TransportClaims.

Variable E : Env.

(** C3. When the encoded request of a command exceeds 4096 bytes
    ([NSM_REQUEST_MAX_SIZE]), [_prepare_nsm_message_iovecs] raises
    [ValueError], the call ends with it and issues no ioctl; a request of
    4096 bytes or fewer passes the check and, on an open file with a
    valid request code, the ioctl is issued. *)
Theorem oversized_request_refused (file_handle : TextIO) (c : command)
    (w : World E) (v : value) (enc : list byte) :
  In (EvDumps v enc) (emitted (call E file_handle c) w) ->
  (len enc > NSM_REQUEST_MAX_SIZE ->
   fst (call E file_handle c w) = inl (ValueError "Request too large.") /\
   forallb (fun e => negb (is_ioctl e)) (emitted (call E file_handle c) w) = true) /\
  (len enc <= NSM_REQUEST_MAX_SIZE ->
   closed file_handle = false ->
   (exists operation, operation_code E = inr operation) ->
   existsb is_ioctl (emitted (call E file_handle c) w) = true) /\
  (forall message request_buffer response_buffer w0,
     (array_len request_buffer > NSM_REQUEST_MAX_SIZE ->
      _prepare_nsm_message_iovecs E message request_buffer response_buffer w0
      = (inl (ValueError "Request too large."), w0)) /\
     (array_len request_buffer <= NSM_REQUEST_MAX_SIZE ->
      exists prepared,
        _prepare_nsm_message_iovecs E message request_buffer response_buffer w0
        = (inr prepared, w0))) /\
  NSM_REQUEST_MAX_SIZE = 4096.
Proof.
  intros Hin. destruct (dumped_facts E _ _ _ _ _ Hin) as [_ [-> Hv]]. clear Hin.
  pose proof (call_shape E file_handle c w) as S.
  remember (emitted (call E file_handle c) w) as tr.
  remember (fst (call E file_handle c w)) as o.
  remember (snd (call E file_handle c w)) as w'.
  repeat split.
  - destruct S; try lia; try congruence; reflexivity.
  - destruct S; try lia; try congruence; reflexivity.
  - intros Hle Hcl [op Hop]. destruct S; try lia; try congruence; reflexivity.
  - intros Hgt. unfold _prepare_nsm_message_iovecs.
    replace (array_len request_buffer >? NSM_REQUEST_MAX_SIZE) with true
      by (symmetry; apply Z.gtb_lt; lia).
    reflexivity.
  - intros Hle. unfold _prepare_nsm_message_iovecs.
    replace (array_len request_buffer >? NSM_REQUEST_MAX_SIZE) with false
      by (symmetry; rewrite Z.gtb_ltb; apply Z.ltb_ge; lia).
    eexists. reflexivity.
Qed.

(** C4. The request code passed to the kernel is computed as
    [IOC(IOC_READ|IOC_WRITE, 0x0A, 0x00, sizeof(NsmMessage))]; with
    8-byte pointers the structure has 32 bytes and the code is
    3223325184; and two platforms with the same structure size submit
    the same code. *)
Theorem operation_code_derived (file_handle : TextIO) (c : command)
    (w : World E) (fd operation : Z) (submitted : NsmMessage)
    (request_bytes : list byte) (errno : option Z) (returned : NsmMessage) :
  In (EvIoctl fd operation submitted request_bytes errno returned)
     (emitted (call E file_handle c) w) ->
  ioctl_opt.IOC (Z.lor ioctl_opt.IOC_READ ioctl_opt.IOC_WRITE) 0x0A 0x00
                (CTypes.sizeof (NsmMessage_layout (pointer_size E)))
  = inr operation /\
  (pointer_size E = 8 ->
   CTypes.sizeof (IoVec_layout (pointer_size E)) = 16 /\
   CTypes.sizeof (NsmMessage_layout (pointer_size E)) = 32 /\
   operation = 3223325184) /\
  (forall (E' : Env) file_handle' c' (w' : World E') fd' operation' submitted'
          request_bytes' errno' returned',
     In (EvIoctl fd' operation' submitted' request_bytes' errno' returned')
        (emitted (call E' file_handle' c') w') ->
     CTypes.sizeof (NsmMessage_layout (pointer_size E')) =
     CTypes.sizeof (NsmMessage_layout (pointer_size E)) ->
     operation' = operation).
Proof.
  intros Hin. apply submitted_facts in Hin.
  destruct Hin as [_ [_ [_ [Hop _]]]]. unfold operation_code in Hop.
  split; [exact Hop |]. split.
  - intros H8. rewrite H8 in *. vm_compute in Hop.
    repeat split; try reflexivity. congruence.
  - intros E' fh' c' w' fd' op' sub' req' errno' ret' Hin' Hsz.
    apply submitted_facts in Hin'.
    destruct Hin' as [_ [_ [_ [Hop' _]]]]. unfold operation_code in Hop'.
    rewrite Hsz in Hop'. congruence.
Qed.

(** C5. What [cbor2.loads] receives is exactly the [response.iov_len]
    bytes found at [response.iov_base] once the kernel has returned, with
    the length the kernel left in the descriptor: as many bytes as that
    length says, and nothing of the memory outside that range. *)
Theorem decoding_reads_used_length (file_handle : TextIO) (c : command)
    (w : World E) (data : list byte) (decoded : exn + value) :
  In (EvLoads data decoded) (emitted (call E file_handle c) w) ->
  exists fd operation submitted request_bytes returned,
    In (EvIoctl fd operation submitted request_bytes None returned)
       (emitted (call E file_handle c) w) /\
    data = load_bytes (mem (snd (call E file_handle c w)))
                      (iov_base (response returned))
                      (iov_len (response returned)) /\
    List.length data = Z.to_nat (iov_len (response returned)) /\
    decoded = loads E data /\
    (forall m' : memory,
       (forall x, iov_base (response returned) <= x
                  < iov_base (response returned) + iov_len (response returned) ->
                  m' x = mem (snd (call E file_handle c w)) x) ->
       load_bytes m' (iov_base (response returned))
                  (iov_len (response returned)) = data).
Proof.
  intros Hin. pose proof (call_shape E file_handle c w) as S.
  remember (emitted (call E file_handle c) w) as tr.
  remember (fst (call E file_handle c w)) as o.
  remember (snd (call E file_handle c w)) as w'.
  destruct S; try (unfold dumped in Hin; no_such_event Hin; fail).
  unfold dumped in Hin. no_such_event Hin.
  injection Hin as <- <-.
  exists (fileno file_handle), operation, submitted, (encoded E c), returned.
  split; [right; left; reflexivity |].
  split; [reflexivity |].
  split; [apply load_bytes_length |].
  split; [reflexivity |].
  intros m' Hm'. apply load_bytes_ext. exact Hm'.
Qed.

(** C8. A command whose arguments pass validation encodes exactly one
    value, the entry of the interoperability table for it, and the bytes
    the device finds under the request descriptor are the encoding of
    that entry.  In the table the parameterised commands are single-key
    mappings from the tag to the parameter record, [DescribeNSM] and
    [GetRandom] are the bare tag, and [Attestation] always carries its
    three fields, [None] standing for an omitted one. *)
Theorem requests_match_table (file_handle : TextIO) (c : command)
    (w : World E) :
  arguments_valid c = true ->
  (exists post,
     emitted (call E file_handle c) w =
     EvDumps (request_table c) (dumps E (request_table c)) :: post /\
     forallb (fun e => negb (is_dumps e)) post = true /\
     forall fd operation submitted request_bytes errno returned,
       In (EvIoctl fd operation submitted request_bytes errno returned) post ->
       request_bytes = dumps E (request_table c)) /\
  match c with
  | Attestation user_data nonce public_key =>
      exists fields,
        request_table c = VDict [(VStr "Attestation", VDict fields)] /\
        Py.lookup "user_data" fields = Some (optional_bytes user_data) /\
        Py.lookup "nonce" fields = Some (optional_bytes nonce) /\
        Py.lookup "public_key" fields = Some (optional_bytes public_key)
  | DescribeNSM | GetRandom _ => Py.isinstance_dict (request_table c) = false
  | _ => Py.isinstance_dict (request_table c) = true
  end.
Proof.
  intros Hv. split.
  - pose proof (call_shape E file_handle c w) as S.
    assert (Hsub := fun fd op sub req errno ret =>
                      submitted_facts E file_handle c w fd op sub req errno ret).
    remember (emitted (call E file_handle c) w) as tr.
    remember (fst (call E file_handle c w)) as o.
    remember (snd (call E file_handle c w)) as w'.
    destruct S; try congruence;
      (eexists; split; [reflexivity |]; split; [reflexivity |];
       intros fd op sub req errno' ret Hin;
       destruct (Hsub fd op sub req errno' ret) as [-> _];
       [right; exact Hin | reflexivity]).
  - destruct c; try reflexivity.
    eexists. split; [reflexivity |].
    destruct user_data, nonce, public_key; repeat split; reflexivity.
Qed.

(** C9. At every ioctl a call issues, the request descriptor's length is
    the length of the encoded request, the bytes under it are the encoded
    request itself, and the response descriptor's length is the full
    capacity, 12288, whatever the command. *)
Theorem descriptors_at_submission (file_handle : TextIO) (c : command)
    (w : World E) (fd operation : Z) (submitted : NsmMessage)
    (request_bytes : list byte) (errno : option Z) (returned : NsmMessage) :
  In (EvIoctl fd operation submitted request_bytes errno returned)
     (emitted (call E file_handle c) w) ->
  In (EvDumps (request_table c) request_bytes) (emitted (call E file_handle c) w) /\
  iov_len (request submitted) = len request_bytes /\
  iov_len (response submitted) = 12288.
Proof.
  intros Hin. apply submitted_facts in Hin.
  destruct Hin as [-> [Hreq [Hresp [_ [_ Hd]]]]].
  repeat split; assumption.
Qed.

End TransportClaims.

(** ** The claims about get_random *)

Section RandomClaims.

Variable E : Env.

Lemma requested_valid (length : option Z) :
  1 <= requested_length length <= 256 ->
  arguments_valid (GetRandom length) = true.
Proof.
  intros H. cbn [arguments_valid]. apply negb_true_iff, orb_false_iff.
  split; [apply Z.ltb_ge | rewrite Z.gtb_ltb; apply Z.ltb_ge]; lia.
Qed.

(** Before the slice, the closing lines of [get_random] do not look at
    the requested length. *)
Lemma classify_random_raw (r : value) (w : World E) :
  exists raw : exn + value,
    forall length,
      fst (classify_random E length r w) =
      match raw with inl e => inl e | inr random_bytes => Py.slice_to random_bytes length end.
Proof.
  unfold classify_random, bind, lift, raise. cbv zeta.
  destruct (Py.get r "GetRandom") as [e | payload];
    [exists (inl e); reflexivity |].
  destruct (Py.get payload "random") as [e | random_bytes];
    [exists (inl e); reflexivity |].
  destruct (Py.contains "GetRandom" r) as [e | present];
    [exists (inl e); reflexivity |].
  destruct present; cbn [negb].
  - exists (inr random_bytes). reflexivity.
  - destruct (Py.get r "Error") as [e | error];
      [exists (inl e) | exists (inl (IoctlError error))]; reflexivity.
Qed.

(** C10. For two lengths within 1..256 the two calls leave the same
    world behind, so the same log: the same value encoded, the same
    control operation on the same request bytes (the encoding of the bare
    tag "GetRandom"), the same bytes decoded.  The outcomes differ by the
    closing slice alone.  A call without a length is the call with 32. *)
Theorem get_random_length_is_client_side (file_handle : TextIO)
    (w : World E) (l1 l2 : Z) :
  1 <= l1 <= 256 ->
  1 <= l2 <= 256 ->
  snd (get_random E file_handle (Some l1) w) =
  snd (get_random E file_handle (Some l2) w) /\
  emitted (get_random E file_handle (Some l1)) w =
  emitted (get_random E file_handle (Some l2)) w /\
  (forall fd operation submitted request_bytes errno returned,
     In (EvIoctl fd operation submitted request_bytes errno returned)
        (emitted (get_random E file_handle (Some l1)) w) ->
     request_bytes = dumps E (VStr "GetRandom")) /\
  (exists raw : exn + value,
     forall l, 1 <= l <= 256 ->
       fst (get_random E file_handle (Some l) w) =
       match raw with
       | inl e => inl e
       | inr random_bytes => Py.slice_to random_bytes l
       end) /\
  get_random E file_handle None w = get_random E file_handle (Some 32) w.
Proof.
  intros H1 H2.
  assert (Hnf : forall l, 1 <= l <= 256 ->
            get_random E file_handle (Some l) w =
            bind (bind (cbor2_dumps E (VStr "GetRandom")) (exchange E file_handle))
                 (classify_random E l) w).
  { intros l Hl.
    apply (call_eq E file_handle (GetRandom (Some l)) w).
    apply requested_valid. exact Hl. }
  assert (Hworld : forall l, 1 <= l <= 256 ->
            snd (get_random E file_handle (Some l) w) =
            snd (bind (cbor2_dumps E (VStr "GetRandom")) (exchange E file_handle) w)).
  { intros l Hl. rewrite (Hnf l Hl). unfold bind at 1.
    destruct (bind (cbor2_dumps E (VStr "GetRandom")) (exchange E file_handle) w)
      as [[e | r] w']; cbn [snd]; [reflexivity |].
    destruct (classify_random_pure E l r) as [o Ho]. rewrite Ho. reflexivity. }
  split; [rewrite (Hworld l1 H1), (Hworld l2 H2); reflexivity |].
  split; [unfold emitted; rewrite (Hworld l1 H1), (Hworld l2 H2); reflexivity |].
  split.
  { intros fd op sub req errno ret Hin.
    apply (submitted_facts E file_handle (GetRandom (Some l1))) in Hin.
    destruct Hin as [-> _]. reflexivity. }
  split; [| reflexivity].
  destruct (bind (cbor2_dumps E (VStr "GetRandom")) (exchange E file_handle) w)
    as [[e | r] w'] eqn:Hx.
  - exists (inl e). intros l Hl. rewrite (Hnf l Hl). unfold bind at 1.
    rewrite Hx. reflexivity.
  - destruct (classify_random_raw r w') as [raw Hraw]. exists raw.
    intros l Hl. rewrite (Hnf l Hl). unfold bind at 1. rewrite Hx. apply Hraw.
Qed.

End RandomClaims.

(** ** The scenarios, run *)

Ltac third_event := vm_compute; right; right; left; reflexivity.
Ltac second_event := vm_compute; right; left; reflexivity.
Ltac first_event := vm_compute; left; reflexivity.

(** [lock_pcr(4)] answered [{"LockPCR": {}}] returns [True];
    [lock_pcrs(16)] answered [{"Error": "InvalidIndex"}] raises the
    driver error carrying "InvalidIndex". *)
Lemma lock_commands_classification_witness :
  (In (EvLoads (Cbor.dumps lock_answer) (inr lock_answer))
      (emitted (lock_pcr scripted nsm_device 4) (answering lock_answer)) /\
   fst (lock_pcr scripted nsm_device 4 (answering lock_answer)) = inr true) /\
  (In (EvLoads (Cbor.dumps error_answer) (inr error_answer))
      (emitted (lock_pcrs scripted nsm_device 16) (answering error_answer)) /\
   fst (lock_pcrs scripted nsm_device 16 (answering error_answer))
   = inl (IoctlError (VStr "InvalidIndex"))).
Proof.
  split.
  - assert (H : In (EvLoads (Cbor.dumps lock_answer) (inr lock_answer))
                   (emitted (lock_pcr scripted nsm_device 4) (answering lock_answer)))
      by third_event.
    split; [exact H |].
    exact (proj1 (lock_commands_classification scripted nsm_device 4
                    (answering lock_answer) _ lock_answer) H).
  - assert (H : In (EvLoads (Cbor.dumps error_answer) (inr error_answer))
                   (emitted (lock_pcrs scripted nsm_device 16) (answering error_answer)))
      by third_event.
    split; [exact H |].
    exact (proj2 (lock_commands_classification scripted nsm_device 16
                    (answering error_answer) _ error_answer) H).
Defined.

(** C1 fails as stated.  [describe_pcr(0)] answered with a mapping that
    holds both "Error" and "DescribePCR" returns the value under
    "DescribePCR" and raises nothing; [get_random(32)] answered
    [{"Error": "InvalidIndex"}] calls [.get] on the [None] it found under
    "GetRandom" and raises [AttributeError], not the driver error. *)
Lemma error_tag_not_always_raised :
  (In (EvLoads (Cbor.dumps error_and_tag_answer) (inr error_and_tag_answer))
      (emitted (describe_pcr scripted nsm_device 0)
               (answering error_and_tag_answer)) /\
   Py.contains "Error" error_and_tag_answer = inr true /\
   fst (describe_pcr scripted nsm_device 0 (answering error_and_tag_answer))
   = inr pcr_description) /\
  (In (EvLoads (Cbor.dumps error_answer) (inr error_answer))
      (emitted (get_random scripted nsm_device (Some 32))
               (answering error_answer)) /\
   Py.contains "Error" error_answer = inr true /\
   fst (get_random scripted nsm_device (Some 32) (answering error_answer))
   = inl AttributeError).
Proof.
  repeat split; try third_event; vm_compute; reflexivity.
Qed.

(** C2 fails as stated.  [get_random(32)] answered
    [{"GetRandom": {"random": b}}] with [b] of 8 bytes returns those 8
    bytes, not 32. *)
Lemma get_random_short_answer :
  In (EvLoads (Cbor.dumps (random_answer 8)) (inr (random_answer 8)))
     (emitted (get_random scripted nsm_device (Some 32))
              (answering (random_answer 8))) /\
  fst (get_random scripted nsm_device (Some 32) (answering (random_answer 8)))
  = inr (VBytes (repeat x07 8)) /\
  len (repeat x07 8) <> 32.
Proof.
  split; [third_event |]. split; [vm_compute; reflexivity |].
  vm_compute. discriminate.
Qed.

(** [extend_pcr] with 5000 bytes of data encodes to 5027 bytes: the call
    raises [ValueError] and logs no ioctl.  [lock_pcr(4)] encodes to 17
    bytes and reaches the device. *)
Lemma oversized_request_refused_witness :
  (In (EvDumps (request_table oversized) (Cbor.dumps (request_table oversized)))
      (emitted (call scripted nsm_device oversized) (boot [])) /\
   len (Cbor.dumps (request_table oversized)) > NSM_REQUEST_MAX_SIZE /\
   fst (call scripted nsm_device oversized (boot []))
   = inl (ValueError "Request too large.") /\
   forallb (fun e => negb (is_ioctl e))
           (emitted (call scripted nsm_device oversized) (boot [])) = true) /\
  (In (EvDumps (request_table (LockPCR 4)) (Cbor.dumps (request_table (LockPCR 4))))
      (emitted (call scripted nsm_device (LockPCR 4)) (answering lock_answer)) /\
   len (Cbor.dumps (request_table (LockPCR 4))) <= NSM_REQUEST_MAX_SIZE /\
   existsb is_ioctl
           (emitted (call scripted nsm_device (LockPCR 4)) (answering lock_answer))
   = true).
Proof.
  split.
  - assert (H : In (EvDumps (request_table oversized)
                            (Cbor.dumps (request_table oversized)))
                   (emitted (call scripted nsm_device oversized) (boot [])))
      by first_event.
    assert (G : len (Cbor.dumps (request_table oversized)) > NSM_REQUEST_MAX_SIZE)
      by (vm_compute; reflexivity).
    split; [exact H |]. split; [exact G |].
    exact (proj1 (oversized_request_refused scripted nsm_device oversized
                    (boot []) _ _ H) G).
  - assert (H : In (EvDumps (request_table (LockPCR 4))
                            (Cbor.dumps (request_table (LockPCR 4))))
                   (emitted (call scripted nsm_device (LockPCR 4))
                            (answering lock_answer)))
      by first_event.
    assert (G : len (Cbor.dumps (request_table (LockPCR 4))) <= NSM_REQUEST_MAX_SIZE)
      by (vm_compute; discriminate).
    split; [exact H |]. split; [exact G |].
    exact (proj1 (proj2 (oversized_request_refused scripted nsm_device (LockPCR 4)
                           (answering lock_answer) _ _ H))
                 G eq_refl (ex_intro _ 3223325184 eq_refl)).
Defined.

(** On the 64-bit platform, [describe_nsm] submits request code
    3223325184, and the structure has 32 bytes. *)
Lemma operation_code_derived_witness :
  In (EvIoctl 3 3223325184 (first_message 12 12288)
              (Cbor.dumps (VStr "DescribeNSM")) None
              (first_message 12 (len (Cbor.dumps lock_answer))))
     (emitted (call scripted nsm_device DescribeNSM) (answering lock_answer)) /\
  ioctl_opt.IOC (Z.lor ioctl_opt.IOC_READ ioctl_opt.IOC_WRITE) 0x0A 0x00
                (CTypes.sizeof (NsmMessage_layout 8))
  = inr 3223325184 /\
  CTypes.sizeof (NsmMessage_layout 8) = 32.
Proof.
  assert (H : In (EvIoctl 3 3223325184 (first_message 12 12288)
                          (Cbor.dumps (VStr "DescribeNSM")) None
                          (first_message 12 (len (Cbor.dumps lock_answer))))
                 (emitted (call scripted nsm_device DescribeNSM)
                          (answering lock_answer)))
    by second_event.
  split; [exact H |].
  pose proof (operation_code_derived scripted nsm_device DescribeNSM
                (answering lock_answer) _ _ _ _ _ _ H) as [Hop [H8 _]].
  split; [exact Hop |].
  exact (proj1 (proj2 (H8 eq_refl))).
Defined.

(** The device answers [describe_pcr(0)] and leaves three stray bytes
    behind its reply: the decoder receives the reply, as long as the
    returned descriptor says, and none of the stray bytes. *)
Lemma decoding_reads_used_length_witness :
  In (EvLoads (Cbor.dumps describe_answer) (inr describe_answer))
     (emitted (call scripted nsm_device (DescribePCR 0))
              (answering_with_residue describe_answer [xff; xfe; xfd])) /\
  exists returned,
    In (EvIoctl 3 3223325184 (first_message 21 12288)
                (Cbor.dumps (request_table (DescribePCR 0))) None returned)
       (emitted (call scripted nsm_device (DescribePCR 0))
                (answering_with_residue describe_answer [xff; xfe; xfd])) /\
    List.length (Cbor.dumps describe_answer)
    = Z.to_nat (iov_len (response returned)).
Proof.
  assert (H : In (EvLoads (Cbor.dumps describe_answer) (inr describe_answer))
                 (emitted (call scripted nsm_device (DescribePCR 0))
                          (answering_with_residue describe_answer [xff; xfe; xfd])))
    by third_event.
  split; [exact H |].
  destruct (decoding_reads_used_length scripted nsm_device (DescribePCR 0)
              (answering_with_residue describe_answer [xff; xfe; xfd]) _ _ H)
    as (fd & operation & submitted & request_bytes & returned
        & Hin & _ & Hlen & _).
  exists returned. split; [| exact Hlen].
  revert Hin. vm_compute. intros [Hin | [Hin | [Hin | []]]]; try discriminate Hin.
  injection Hin as <- <- <- <- <-. right; left; reflexivity.
Defined.

(** [get_attestation_doc()] with nothing supplied encodes
    [{"Attestation": {"user_data": None, "nonce": None, "public_key": None}}]
    first. *)
Lemma requests_match_table_witness :
  arguments_valid (Attestation None None None) = true /\
  exists post,
    emitted (call scripted nsm_device (Attestation None None None)) (boot [])
    = EvDumps (VDict [(VStr "Attestation",
                       VDict [(VStr "user_data", VNone);
                              (VStr "nonce", VNone);
                              (VStr "public_key", VNone)])])
              (Cbor.dumps (request_table (Attestation None None None)))
      :: post.
Proof.
  split; [reflexivity |].
  destruct (proj1 (requests_match_table scripted nsm_device
                     (Attestation None None None) (boot []) eq_refl))
    as [post [H _]].
  exists post. exact H.
Defined.

(** [lock_pcr(4)] submits a request descriptor of 17 bytes, the length of
    its encoded request, and a response descriptor of 12288. *)
Lemma descriptors_at_submission_witness :
  In (EvIoctl 3 3223325184 (first_message 17 12288)
              (Cbor.dumps (request_table (LockPCR 4))) None
              (first_message 17 (len (Cbor.dumps lock_answer))))
     (emitted (call scripted nsm_device (LockPCR 4)) (answering lock_answer)) /\
  In (EvDumps (request_table (LockPCR 4)) (Cbor.dumps (request_table (LockPCR 4))))
     (emitted (call scripted nsm_device (LockPCR 4)) (answering lock_answer)) /\
  iov_len (request (first_message 17 12288))
  = len (Cbor.dumps (request_table (LockPCR 4))) /\
  iov_len (response (first_message 17 12288)) = 12288.
Proof.
  assert (H : In (EvIoctl 3 3223325184 (first_message 17 12288)
                          (Cbor.dumps (request_table (LockPCR 4))) None
                          (first_message 17 (len (Cbor.dumps lock_answer))))
                 (emitted (call scripted nsm_device (LockPCR 4))
                          (answering lock_answer)))
    by second_event.
  split; [exact H |].
  exact (descriptors_at_submission scripted nsm_device (LockPCR 4)
           (answering lock_answer) _ _ _ _ _ _ H).
Defined.

(** [get_random(1)] and [get_random(256)] leave the same world and the
    same log. *)
Lemma get_random_length_is_client_side_witness :
  1 <= 1 <= 256 /\ 1 <= 256 <= 256 /\
  snd (get_random scripted nsm_device (Some 1) (answering (random_answer 64)))
  = snd (get_random scripted nsm_device (Some 256) (answering (random_answer 64))) /\
  emitted (get_random scripted nsm_device (Some 1)) (answering (random_answer 64))
  = emitted (get_random scripted nsm_device (Some 256)) (answering (random_answer 64)).
Proof.
  assert (H1 : 1 <= 1 <= 256) by lia.
  assert (H2 : 1 <= 256 <= 256) by lia.
  split; [exact H1 |]. split; [exact H2 |].
  destruct (get_random_length_is_client_side scripted nsm_device
              (answering (random_answer 64)) 1 256 H1 H2) as [Hw [He _]].
  split; [exact Hw | exact He].
Defined.

(** ** Further properties of the calls *)

Section CallProperties.

Variable E : Env.

(** [IOC] raises nothing but its assertions. *)
Lemma operation_code_error (e : exn) :
  operation_code E = inl e -> e = AssertionError.
Proof.
  unfold operation_code, ioctl_opt.IOC.
  repeat match goal with
         | |- context [if ?b then _ else _] => destruct b
         end; intros H; congruence.
Qed.

(** X3. A call talks to the outside at most three times, in a fixed
    order: it encodes once, then issues at most one ioctl, then decodes
    at most once, and it decodes only what an ioctl without error left.
    Nothing is retried. *)
Theorem call_log_shape (file_handle : TextIO) (c : command) (w : World E) :
  let log := emitted (call E file_handle c) w in
  let encoding := EvDumps (request_table c) (dumps E (request_table c)) in
  log = [] \/
  log = [encoding] \/
  (exists operation submitted errno returned,
     log = [encoding;
            EvIoctl (fileno file_handle) operation submitted
                    (dumps E (request_table c)) (Some errno) returned]) \/
  (exists operation submitted returned data,
     log = [encoding;
            EvIoctl (fileno file_handle) operation submitted
                    (dumps E (request_table c)) None returned;
            EvLoads data (loads E data)]).
Proof.
  cbv zeta. pose proof (call_shape E file_handle c w) as S.
  remember (emitted (call E file_handle c) w) as tr.
  remember (fst (call E file_handle c w)) as o.
  remember (snd (call E file_handle c w)) as w'.
  destruct S.
  - left. reflexivity.
  - right. left. reflexivity.
  - right. left. reflexivity.
  - right. left. reflexivity.
  - right. right. left. do 4 eexists. reflexivity.
  - right. right. right. do 4 eexists. reflexivity.
Qed.

(** X1. When the ioctl fails at the OS level the call raises [OSError]
    with the kernel's error number, and hands nothing to the decoder. *)
Theorem os_error_surfaces (file_handle : TextIO) (c : command) (w : World E)
    (fd operation : Z) (submitted : NsmMessage) (request_bytes : list byte)
    (errno : Z) (returned : NsmMessage) :
  In (EvIoctl fd operation submitted request_bytes (Some errno) returned)
     (emitted (call E file_handle c) w) ->
  fst (call E file_handle c w) = inl (OSError errno) /\
  forall data decoded,
    ~ In (EvLoads data decoded) (emitted (call E file_handle c) w).
Proof.
  intros Hin. pose proof (call_shape E file_handle c w) as S.
  remember (emitted (call E file_handle c) w) as tr.
  remember (fst (call E file_handle c w)) as o.
  remember (snd (call E file_handle c w)) as w'.
  destruct S; try (unfold dumped in Hin; no_such_event Hin; fail).
  unfold dumped in Hin.
  destruct Hin as [Hin | [Hin | []]]; [discriminate Hin |].
  injection Hin as _ _ _ _ Herrno _. rewrite Herrno.
  split; [reflexivity |].
  intros data decoded Hl. unfold dumped in Hl. no_such_event Hl.
Qed.

(** X2. When [cbor2.loads] raises on the response bytes, the call raises
    that same exception: no classification is attempted. *)
Theorem decode_error_surfaces (file_handle : TextIO) (c : command)
    (w : World E) (data : list byte) (e : exn) :
  In (EvLoads data (inl e)) (emitted (call E file_handle c) w) ->
  fst (call E file_handle c w) = inl e.
Proof.
  intros Hin. pose proof (call_shape E file_handle c w) as S.
  remember (emitted (call E file_handle c) w) as tr.
  remember (fst (call E file_handle c w)) as o.
  remember (snd (call E file_handle c w)) as w'.
  destruct S; try (unfold dumped in Hin; no_such_event Hin; fail).
  unfold dumped in Hin. no_such_event Hin.
  injection Hin as _ Hl. rewrite Hl. reflexivity.
Qed.

(** X5. On a handle closed by [close_nsm_device] no command reaches the
    kernel or the decoder: the call ends in [ValueError] (from the length
    check of [get_random], from the size check, or from [fcntl.ioctl]
    finding the file closed) or in the assertion of [IOC]. *)
Theorem closed_handle_never_reaches_kernel (file_handle : TextIO)
    (c : command) (w : World E) :
  let closed_handle := close_nsm_device file_handle in
  (fst (call E closed_handle c w) =
     inl (ValueError "GetRandom supports length between 1 and 256 inclusive.") \/
   fst (call E closed_handle c w) = inl (ValueError "Request too large.") \/
   fst (call E closed_handle c w) = inl AssertionError \/
   fst (call E closed_handle c w) =
     inl (ValueError "I/O operation on closed file")) /\
  forallb (fun e => negb (is_ioctl e)) (emitted (call E closed_handle c) w) = true /\
  (arguments_valid c = true ->
   len (dumps E (request_table c)) <= NSM_REQUEST_MAX_SIZE ->
   (exists operation, operation_code E = inr operation) ->
   fst (call E closed_handle c w) = inl (ValueError "I/O operation on closed file")).
Proof.
  cbv zeta. pose proof (call_shape E (close_nsm_device file_handle) c w) as S.
  remember (emitted (call E (close_nsm_device file_handle) c) w) as tr.
  remember (fst (call E (close_nsm_device file_handle) c w)) as o.
  remember (snd (call E (close_nsm_device file_handle) c w)) as w'.
  destruct S; try (cbn [closed close_nsm_device] in *; discriminate).
  - split; [left; reflexivity |]. split; [reflexivity |]. congruence.
  - split; [right; left; reflexivity |]. split; [reflexivity |].
    intros _ Hle _. unfold encoded in *. lia.
  - apply operation_code_error in H1 as E1. subst e.
    split; [right; right; left; reflexivity |]. split; [reflexivity |].
    intros _ _ [op Hop]. congruence.
  - split; [right; right; right; reflexivity |]. split; reflexivity.
Qed.

End CallProperties.

(** ** The request code on any platform *)

Lemma align_up_multiple (k p : Z) :
  1 <= p -> CTypes.align_up (k * p) p = k * p.
Proof.
  intros Hp. unfold CTypes.align_up.
  replace (k * p + p - 1) with (p - 1 + k * p) by lia.
  rewrite Z.div_add by lia. rewrite Z.div_small by lia. lia.
Qed.

(** The structures of [structs.py] have no padding: two pointer widths
    for [IoVec], four for [NsmMessage]. *)
Lemma layout_sizes (p : Z) :
  1 <= p ->
  CTypes.sizeof (IoVec_layout p) = 2 * p /\
  CTypes.sizeof (NsmMessage_layout p) = 4 * p.
Proof.
  intros Hp.
  assert (A0 : CTypes.align_up 0 p = 0) by (apply (align_up_multiple 0 p Hp)).
  assert (A1 : CTypes.align_up p p = p).
  { pose proof (align_up_multiple 1 p Hp) as H. rewrite Z.mul_1_l in H. exact H. }
  assert (A2 : CTypes.align_up (p + p) p = p + p).
  { pose proof (align_up_multiple 2 p Hp) as H.
    replace (2 * p) with (p + p) in H by lia. exact H. }
  assert (A4 : CTypes.align_up (p + p + (p + p)) p = p + p + (p + p)).
  { pose proof (align_up_multiple 4 p Hp) as H.
    replace (4 * p) with (p + p + (p + p)) in H by lia. exact H. }
  unfold NsmMessage_layout, IoVec_layout, CTypes.Structure, CTypes.place_field,
    CTypes.c_void_p, CTypes.c_size_t, CTypes.sizeof.
  cbn [fold_left fst snd CTypes.size CTypes.align].
  rewrite (Z.max_r 1 p) by lia. rewrite !(Z.max_id p).
  rewrite A0. cbn [Z.add]. rewrite A1, !A2.
  split; [lia |].
  rewrite (Z.max_r 1 p) by lia. rewrite (Z.max_id p). rewrite A4. lia.
Qed.

(** The request code and its four bit fields, for every structure size a
    pointer width up to 4095 gives. *)
Lemma request_codes_checked :
  forallb
    (fun n =>
       match ioctl_opt.IOC (Z.lor ioctl_opt.IOC_READ ioctl_opt.IOC_WRITE)
                           NSM_IOCTL_MAGIC NSM_IOCTL_NUMBER (4 * Z.of_nat n) with
       | inr operation =>
           (operation =? 3221228032 + 262144 * Z.of_nat n)
           && (Z.land (Z.shiftr operation ioctl_opt._IOC_DIRSHIFT)
                      ioctl_opt._IOC_DIRMASK
               =? Z.lor ioctl_opt.IOC_READ ioctl_opt.IOC_WRITE)
           && (Z.land (Z.shiftr operation ioctl_opt._IOC_TYPESHIFT)
                      ioctl_opt._IOC_TYPEMASK
               =? NSM_IOCTL_MAGIC)
           && (Z.land (Z.shiftr operation ioctl_opt._IOC_NRSHIFT)
                      ioctl_opt._IOC_NRMASK
               =? NSM_IOCTL_NUMBER)
           && (Z.land (Z.shiftr operation ioctl_opt._IOC_SIZESHIFT)
                      ioctl_opt._IOC_SIZEMASK
               =? 4 * Z.of_nat n)
       | inl _ => false
       end)
    (seq 1 4095) = true.
Proof. vm_compute. reflexivity. Qed.

Lemma request_code_checked (p operation : Z) :
  1 <= p <= 4095 ->
  ioctl_opt.IOC (Z.lor ioctl_opt.IOC_READ ioctl_opt.IOC_WRITE)
                NSM_IOCTL_MAGIC NSM_IOCTL_NUMBER (4 * p) = inr operation ->
  operation = 3221228032 + 262144 * p /\
  Z.land (Z.shiftr operation ioctl_opt._IOC_DIRSHIFT) ioctl_opt._IOC_DIRMASK
  = Z.lor ioctl_opt.IOC_READ ioctl_opt.IOC_WRITE /\
  Z.land (Z.shiftr operation ioctl_opt._IOC_TYPESHIFT) ioctl_opt._IOC_TYPEMASK
  = NSM_IOCTL_MAGIC /\
  Z.land (Z.shiftr operation ioctl_opt._IOC_NRSHIFT) ioctl_opt._IOC_NRMASK
  = NSM_IOCTL_NUMBER /\
  Z.land (Z.shiftr operation ioctl_opt._IOC_SIZESHIFT) ioctl_opt._IOC_SIZEMASK
  = 4 * p.
Proof.
  intros Hp Hop.
  pose proof request_codes_checked as H.
  rewrite forallb_forall in H.
  specialize (H (Z.to_nat p)).
  rewrite Z2Nat.id in H by lia. rewrite Hop in H.
  assert (Hin : In (Z.to_nat p) (seq 1 4095)) by (apply in_seq; lia).
  apply H in Hin.
  repeat (apply andb_true_iff in Hin; destruct Hin as [Hin ?]).
  repeat match goal with
         | K : (_ =? _) = true |- _ => apply Z.eqb_eq in K
         end.
  repeat split; assumption.
Qed.

Section RequestCode.

Variable E : Env.

(** X6. With pointers of [p] bytes (1 <= p <= 4095) [NsmMessage] has
    [4 * p] bytes and every ioctl of every command carries the request
    code [3221228032 + 262144 * p]: the 3223325184 of the source comment
    exactly when pointers have 8 bytes. *)
Theorem operation_code_by_pointer_width (file_handle : TextIO) (c : command)
    (w : World E) (fd operation : Z) (submitted : NsmMessage)
    (request_bytes : list byte) (errno : option Z) (returned : NsmMessage) :
  1 <= pointer_size E <= 4095 ->
  In (EvIoctl fd operation submitted request_bytes errno returned)
     (emitted (call E file_handle c) w) ->
  CTypes.sizeof (NsmMessage_layout (pointer_size E)) = 4 * pointer_size E /\
  operation = 3221228032 + 262144 * pointer_size E /\
  (operation = 3223325184 <-> pointer_size E = 8).
Proof.
  intros Hp Hin. apply submitted_facts in Hin.
  destruct Hin as [_ [_ [_ [Hop _]]]]. unfold operation_code in Hop.
  destruct (layout_sizes (pointer_size E)) as [_ Hsz]; [lia |].
  rewrite Hsz in Hop.
  destruct (request_code_checked _ _ Hp Hop) as [Hval _].
  split; [exact Hsz |]. split; [exact Hval |]. lia.
Qed.

(** X7. The request code of every ioctl decomposes, with the shifts and
    masks of [ioctl_opt], into the direction [IOC_READ|IOC_WRITE], the
    magic 0x0A, the number 0 and the size of [NsmMessage]: the fields do
    not overlap for any pointer width up to 4095. *)
Theorem operation_code_fields (file_handle : TextIO) (c : command)
    (w : World E) (fd operation : Z) (submitted : NsmMessage)
    (request_bytes : list byte) (errno : option Z) (returned : NsmMessage) :
  1 <= pointer_size E <= 4095 ->
  In (EvIoctl fd operation submitted request_bytes errno returned)
     (emitted (call E file_handle c) w) ->
  Z.land (Z.shiftr operation ioctl_opt._IOC_DIRSHIFT) ioctl_opt._IOC_DIRMASK
  = Z.lor ioctl_opt.IOC_READ ioctl_opt.IOC_WRITE /\
  Z.land (Z.shiftr operation ioctl_opt._IOC_TYPESHIFT) ioctl_opt._IOC_TYPEMASK
  = NSM_IOCTL_MAGIC /\
  Z.land (Z.shiftr operation ioctl_opt._IOC_NRSHIFT) ioctl_opt._IOC_NRMASK
  = NSM_IOCTL_NUMBER /\
  Z.land (Z.shiftr operation ioctl_opt._IOC_SIZESHIFT) ioctl_opt._IOC_SIZEMASK
  = CTypes.sizeof (NsmMessage_layout (pointer_size E)).
Proof.
  intros Hp Hin. apply submitted_facts in Hin.
  destruct Hin as [_ [_ [_ [Hop _]]]]. unfold operation_code in Hop.
  destruct (layout_sizes (pointer_size E)) as [_ Hsz]; [lia |].
  rewrite Hsz in *.
  destruct (request_code_checked _ _ Hp Hop) as [_ Hfields]. exact Hfields.
Qed.

End RequestCode.

(** ** Responses of an unexpected form *)

Section UnexpectedResponses.

Variable E : Env.

(** X4. [get_random] on a decoded response [r]: unless [r] is a mapping
    whose "GetRandom" entry is itself a mapping, the two [.get] calls
    that precede the test for the tag raise [AttributeError]; otherwise
    the result is the slice of whatever stands under "random" ([None]
    when nothing does, which the slice refuses with [TypeError]).  In no
    case does [get_random] raise the driver error: its test for a
    missing tag is reached only when the tag is there. *)
Theorem get_random_classification (file_handle : TextIO) (length : option Z)
    (w : World E) (data : list byte) (r : value) :
  In (EvLoads data (inr r)) (emitted (get_random E file_handle length) w) ->
  fst (get_random E file_handle length w) =
  match r with
  | VDict items =>
      match Py.lookup "GetRandom" items with
      | Some (VDict fields) =>
          Py.slice_to (match Py.lookup "random" fields with
                       | Some random_bytes => random_bytes
                       | None => VNone
                       end)
                      (requested_length length)
      | _ => inl AttributeError
      end
  | _ => inl AttributeError
  end /\
  forall payload,
    fst (get_random E file_handle length w) <> inl (IoctlError payload).
Proof.
  intros Hin.
  apply (decoded_outcome E file_handle (GetRandom length)) in Hin.
  cbn [call finish] in Hin. rewrite Hin. clear Hin.
  unfold classify_random, bind, lift, raise. cbv zeta.
  assert (Hslice : forall v n payload,
            Py.slice_to v n <> inl (IoctlError payload)).
  { intros v n payload. destruct v; cbn [Py.slice_to]; discriminate. }
  destruct r; cbn [Py.get fst]; try (split; [reflexivity | discriminate]).
  destruct (Py.lookup "GetRandom" items) as [payload |] eqn:Hkey;
    cbn [Py.get fst]; [| split; [reflexivity | discriminate]].
  destruct payload; cbn [Py.get fst]; try (split; [reflexivity | discriminate]).
  cbn [Py.contains]. rewrite Hkey. cbn [negb].
  split; [reflexivity | apply Hslice].
Qed.

(** X8. The four tag-returning commands on a decoded response that is
    not a mapping: a text string or an array passes or fails the [in]
    test and then has no [.get] ([AttributeError]); [None], a boolean, an
    integer or a byte string fails the [in] test itself ([TypeError]).
    The driver error is not raised for any of them. *)
Theorem tag_commands_non_mapping (file_handle : TextIO) (c : command)
    (tag : string) (w : World E) (data : list byte) (r : value) :
  returns_tag c = Some tag ->
  Py.isinstance_dict r = false ->
  In (EvLoads data (inr r)) (emitted (call E file_handle c) w) ->
  fst (call E file_handle c w) =
  inl (match r with
       | VStr _ | VList _ => AttributeError
       | _ => TypeError
       end).
Proof.
  intros Hc Hr Hin. apply decoded_outcome in Hin. rewrite Hin. clear Hin.
  destruct c; try discriminate Hc;
    cbn [finish]; unfold classify_tag, bind, lift, raise;
    destruct r; try discriminate Hr; cbn [Py.contains Py.get fst];
    try reflexivity;
    match goal with
    | |- context [if negb ?b then _ else _] => destruct b; reflexivity
    end.
Qed.

End UnexpectedResponses.

(** ** The further scenarios, run *)

(** The device refuses [describe_nsm] with [EACCES]: the call raises
    [OSError(13)]. *)
Lemma os_error_surfaces_witness :
  In (EvIoctl 3 3223325184 (first_message 12 12288)
              (Cbor.dumps (VStr "DescribeNSM")) (Some 13)
              (first_message 12 12288))
     (emitted (call scripted nsm_device DescribeNSM) refusing) /\
  fst (describe_nsm scripted nsm_device refusing) = inl (OSError 13).
Proof.
  assert (H : In (EvIoctl 3 3223325184 (first_message 12 12288)
                          (Cbor.dumps (VStr "DescribeNSM")) (Some 13)
                          (first_message 12 12288))
                 (emitted (call scripted nsm_device DescribeNSM) refusing))
    by second_event.
  split; [exact H |].
  exact (proj1 (os_error_surfaces scripted nsm_device DescribeNSM refusing
                  _ _ _ _ _ _ H)).
Defined.

(** The device answers [lock_pcr(4)] with a byte that is no CBOR item:
    the call raises the decoder's error. *)
Lemma decode_error_surfaces_witness :
  In (EvLoads [xff] (inl CBORDecodeError))
     (emitted (call scripted nsm_device (LockPCR 4)) garbling) /\
  fst (call scripted nsm_device (LockPCR 4) garbling) = inl CBORDecodeError.
Proof.
  assert (H : In (EvLoads [xff] (inl CBORDecodeError))
                 (emitted (call scripted nsm_device (LockPCR 4)) garbling))
    by third_event.
  split; [exact H |].
  exact (decode_error_surfaces scripted nsm_device (LockPCR 4) garbling _ _ H).
Defined.

(** [lock_pcr(4)] on a closed handle raises [ValueError] and the device
    is not called. *)
Lemma closed_handle_never_reaches_kernel_witness :
  fst (call scripted (close_nsm_device nsm_device) (LockPCR 4)
            (answering lock_answer))
  = inl (ValueError "I/O operation on closed file") /\
  forallb (fun e => negb (is_ioctl e))
          (emitted (call scripted (close_nsm_device nsm_device) (LockPCR 4))
                   (answering lock_answer)) = true.
Proof.
  destruct (closed_handle_never_reaches_kernel scripted nsm_device (LockPCR 4)
              (answering lock_answer)) as [_ [Hnone Hclosed]].
  split; [| exact Hnone].
  apply Hclosed.
  - reflexivity.
  - vm_compute. discriminate.
  - exists 3223325184. reflexivity.
Defined.

(** [get_random(32)] answered [{"Error": "InvalidIndex"}] raises
    [AttributeError]. *)
Lemma get_random_classification_witness :
  In (EvLoads (Cbor.dumps error_answer) (inr error_answer))
     (emitted (get_random scripted nsm_device (Some 32)) (answering error_answer)) /\
  fst (get_random scripted nsm_device (Some 32) (answering error_answer))
  = inl AttributeError.
Proof.
  assert (H : In (EvLoads (Cbor.dumps error_answer) (inr error_answer))
                 (emitted (get_random scripted nsm_device (Some 32))
                          (answering error_answer)))
    by third_event.
  split; [exact H |].
  exact (proj1 (get_random_classification scripted nsm_device (Some 32)
                  (answering error_answer) _ error_answer H)).
Defined.

(** [describe_nsm] answered with the bare text "DescribeNSM" raises
    [AttributeError]. *)
Lemma tag_commands_non_mapping_witness :
  returns_tag DescribeNSM = Some "DescribeNSM" /\
  Py.isinstance_dict (VStr "DescribeNSM") = false /\
  In (EvLoads (Cbor.dumps (VStr "DescribeNSM")) (inr (VStr "DescribeNSM")))
     (emitted (call scripted nsm_device DescribeNSM)
              (answering (VStr "DescribeNSM"))) /\
  fst (describe_nsm scripted nsm_device (answering (VStr "DescribeNSM")))
  = inl AttributeError.
Proof.
  assert (H : In (EvLoads (Cbor.dumps (VStr "DescribeNSM"))
                          (inr (VStr "DescribeNSM")))
                 (emitted (call scripted nsm_device DescribeNSM)
                          (answering (VStr "DescribeNSM"))))
    by third_event.
  split; [reflexivity |]. split; [reflexivity |]. split; [exact H |].
  exact (tag_commands_non_mapping scripted nsm_device DescribeNSM "DescribeNSM"
           (answering (VStr "DescribeNSM")) _ (VStr "DescribeNSM")
           eq_refl eq_refl H).
Defined.

(** On the 64-bit platform the request code of [describe_nsm] is
    3221228032 + 262144 * 8. *)
Lemma operation_code_by_pointer_width_witness :
  1 <= pointer_size scripted <= 4095 /\
  In (EvIoctl 3 3223325184 (first_message 12 12288)
              (Cbor.dumps (VStr "DescribeNSM")) None
              (first_message 12 (len (Cbor.dumps lock_answer))))
     (emitted (call scripted nsm_device DescribeNSM) (answering lock_answer)) /\
  3223325184 = 3221228032 + 262144 * pointer_size scripted.
Proof.
  assert (Hp : 1 <= pointer_size scripted <= 4095) by (cbn [pointer_size scripted]; lia).
  assert (H : In (EvIoctl 3 3223325184 (first_message 12 12288)
                          (Cbor.dumps (VStr "DescribeNSM")) None
                          (first_message 12 (len (Cbor.dumps lock_answer))))
                 (emitted (call scripted nsm_device DescribeNSM)
                          (answering lock_answer)))
    by second_event.
  split; [exact Hp |]. split; [exact H |].
  exact (proj1 (proj2 (operation_code_by_pointer_width scripted nsm_device
                         DescribeNSM (answering lock_answer)
                         _ _ _ _ _ _ Hp H))).
Defined.

(** ... and its size field reads back the 32 bytes of [NsmMessage]. *)
Lemma operation_code_fields_witness :
  1 <= pointer_size scripted <= 4095 /\
  In (EvIoctl 3 3223325184 (first_message 12 12288)
              (Cbor.dumps (VStr "DescribeNSM")) None
              (first_message 12 (len (Cbor.dumps lock_answer))))
     (emitted (call scripted nsm_device DescribeNSM) (answering lock_answer)) /\
  Z.land (Z.shiftr 3223325184 ioctl_opt._IOC_SIZESHIFT) ioctl_opt._IOC_SIZEMASK
  = CTypes.sizeof (NsmMessage_layout (pointer_size scripted)).
Proof.
  assert (Hp : 1 <= pointer_size scripted <= 4095) by (cbn [pointer_size scripted]; lia).
  assert (H : In (EvIoctl 3 3223325184 (first_message 12 12288)
                          (Cbor.dumps (VStr "DescribeNSM")) None
                          (first_message 12 (len (Cbor.dumps lock_answer))))
                 (emitted (call scripted nsm_device DescribeNSM)
                          (answering lock_answer)))
    by second_event.
  split; [exact Hp |]. split; [exact H |].
  exact (proj2 (proj2 (proj2 (operation_code_fields scripted nsm_device
                                DescribeNSM (answering lock_answer)
                                _ _ _ _ _ _ Hp H)))).
Defined.

(** ** Calls the surroundings serve *)

Section ServedCalls.

Variable E : Env.

(** The buffers' contents do not depend on the log. *)
Lemma staged_mem_log (request_data : list byte) (w : World E)
    (log : list event) :
  mem (staged E request_data (Build_World E (mem w) (brk w) (kernel w) log))
  = mem (staged E request_data w).
Proof.
  unfold staged, buffers, create_string_buffer, c_uint8_array, allocate, store,
    bind, ret. cbn [fst snd brk].
  rewrite Z.gtb_ltb, Z.ltb_irrefl. reflexivity.
Qed.

(** A served call runs to its closing lines with the decoded response. *)
Lemma call_served (file_handle : TextIO) (c : command) (w : World E)
    (r : value) :
  served E file_handle c w r ->
  fst (call E file_handle c w) = fst (finish E c r w).
Proof.
  intros (Hv & Hle & Hcl & operation & Hop & Herrno & Hloads).
  assert (Hc := call_eq E file_handle c w Hv).
  rewrite bind_assoc in Hc. unfold bind at 1, cbor2_dumps at 1 in Hc.
  unfold bind at 1, log at 1, ret at 1 in Hc. cbn [mem brk kernel trace] in Hc.
  fold (encoded E c) in Hc. fold (dumped E c) in Hc.
  unfold bind at 1 in Hc. rewrite exchange_eq in Hc. cbv zeta in Hc.
  replace (len (encoded E c) >? NSM_REQUEST_MAX_SIZE) with false in Hc
    by (symmetry; rewrite Z.gtb_ltb; apply Z.ltb_ge; exact Hle).
  rewrite Hop, Hcl in Hc. cbn [kernel] in Hc.
  rewrite staged_mem_log in Hc.
  change (staged_message E (encoded E c)
            (Build_World E (mem w) (brk w) (kernel w) (trace w ++ [dumped E c])))
    with (staged_message E (encoded E c) w) in Hc.
  fold (kernel_reply E file_handle c w operation) in Hc.
  rewrite Herrno in Hc.
  fold (response_bytes E (kernel_reply E file_handle c w operation)) in Hc.
  rewrite Hloads in Hc.
  rewrite Hc. apply finish_outcome.
Qed.

(** C6. When the surroundings serve [describe_pcr],
    [get_attestation_doc], [extend_pcr] or [describe_nsm] with the
    decoded response [r]: a mapping without the command's tag makes the
    call raise (the driver error with whatever is under "Error", [None]
    if nothing is); a response that is no mapping makes it raise some
    exception; and a mapping with the tag makes it return the value
    stored under the tag, unchanged. *)
Theorem tag_commands_return_or_raise (file_handle : TextIO) (c : command)
    (tag : string) (w : World E) (r : value) :
  returns_tag c = Some tag ->
  served E file_handle c w r ->
  match r with
  | VDict items =>
      match Py.lookup tag items with
      | Some v => fst (call E file_handle c w) = inr v
      | None =>
          fst (call E file_handle c w) =
          inl (IoctlError (match Py.lookup "Error" items with
                           | Some e => e
                           | None => VNone
                           end))
      end
  | _ => exists e, fst (call E file_handle c w) = inl e
  end.
Proof.
  intros Hc Hs. rewrite (call_served _ _ _ _ Hs).
  destruct r; try (apply (finish_tag_other E c tag); [exact Hc | reflexivity]).
  rewrite (finish_tag_dict E c tag) by exact Hc.
  destruct (Py.lookup tag items); reflexivity.
Qed.

(** C1, as the code has it.  When the surroundings serve a command with
    a decoded response that is a mapping containing "Error", with the
    value [e] under it: [lock_pcr] and [lock_pcrs] raise the driver error
    carrying [e], whatever else the mapping holds; [describe_pcr],
    [get_attestation_doc], [extend_pcr] and [describe_nsm] raise that
    driver error when the mapping lacks the command's own tag, and return
    the value under the tag, not looking at "Error", when it holds the
    tag too. *)
Theorem driver_error_classification (file_handle : TextIO) (c : command)
    (w : World E) (items : list (value * value)) (e : value) :
  served E file_handle c w (VDict items) ->
  Py.lookup "Error" items = Some e ->
  (is_lock c = true ->
   fst (call E file_handle c w) = inl (IoctlError e)) /\
  (forall tag, returns_tag c = Some tag ->
     match Py.lookup tag items with
     | None => fst (call E file_handle c w) = inl (IoctlError e)
     | Some v => fst (call E file_handle c w) = inr v
     end).
Proof.
  intros Hs He. rewrite (call_served _ _ _ _ Hs). split.
  - intros Hc. apply finish_lock_error; assumption.
  - intros tag Hc. rewrite (finish_tag_dict E c tag) by exact Hc.
    destruct (Py.lookup tag items); [reflexivity |].
    rewrite He. reflexivity.
Qed.

(** C2, as the code has it.  A length outside 1..256 raises [ValueError]
    with the world untouched: nothing encoded, no kernel call.  For every
    length L within 1..256, when the surroundings serve the call with the
    decoded response [{"GetRandom": {"random": b}}], [b] a byte string,
    the call returns the first [min L (len b)] bytes of [b]: exactly L
    bytes when the module supplied at least L, all of [b] when it
    supplied fewer. *)
Theorem get_random_serves_prefix (file_handle : TextIO) (length : option Z)
    (w : World E) :
  (requested_length length < 1 \/ requested_length length > 256 ->
   get_random E file_handle length w =
   (inl (ValueError "GetRandom supports length between 1 and 256 inclusive."), w)
   /\ emitted (get_random E file_handle length) w = []) /\
  (1 <= requested_length length <= 256 ->
   forall items fields b,
     served E file_handle (GetRandom length) w (VDict items) ->
     Py.lookup "GetRandom" items = Some (VDict fields) ->
     Py.lookup "random" fields = Some (VBytes b) ->
     fst (get_random E file_handle length w) =
     inr (VBytes (firstn (Z.to_nat (requested_length length)) b)) /\
     len (firstn (Z.to_nat (requested_length length)) b) =
     Z.min (requested_length length) (len b)).
Proof.
  split.
  - intros Hout.
    assert (Hv : arguments_valid (GetRandom length) = false).
    { cbn [arguments_valid]. apply negb_false_iff, orb_true_iff.
      destruct Hout; [left; apply Z.ltb_lt | right; apply Z.gtb_lt]; lia. }
    pose proof (call_invalid E file_handle _ w Hv) as Hc. cbn [call] in Hc.
    split; [exact Hc |]. unfold emitted. rewrite Hc. cbn [snd].
    apply skipn_all.
  - intros Hin_range items fields b Hs Hrandom Hbytes.
    pose proof (call_served _ _ _ _ Hs) as Hc. cbn [call finish] in Hc.
    rewrite Hc.
    unfold classify_random, bind, lift, raise. cbv zeta.
    cbn [Py.get Py.contains]. rewrite Hrandom. cbn [Py.get negb].
    rewrite Hbytes. cbn [fst Py.slice_to]. unfold Py.slice_stop.
    replace (requested_length length <? 0) with false
      by (symmetry; apply Z.ltb_ge; lia).
    split; [reflexivity |].
    unfold len. rewrite length_firstn. lia.
Qed.

End ServedCalls.

(** ** The served scenarios, run *)

Ltac serve :=
  unfold served;
  split; [reflexivity |];
  split; [vm_compute; discriminate |];
  split; [reflexivity |];
  exists 3223325184;
  split; [vm_compute; reflexivity |];
  split; vm_compute; reflexivity.

(** Prove that the scripted surroundings serve the call, then conclude
    with [k]. *)
Ltac served_case k :=
  match goal with
  | |- served scripted ?fh ?c ?w ?r /\ _ =>
      let Hs := fresh "Hs" in
      assert (Hs : served scripted fh c w r) by serve;
      split; [exact Hs | k fh c w r Hs]
  end.

(** Each of the four tag-returning commands, answered with a mapping that
    holds its tag, returns the value under the tag; [describe_nsm]
    answered [{"Error": "InvalidIndex"}] raises the driver error with
    "InvalidIndex", and [extend_pcr] answered [{"LockPCR": {}}] raises it
    with [None]. *)
Lemma tag_commands_return_or_raise_witness :
  (served scripted nsm_device (DescribePCR 0) (answering describe_answer)
          describe_answer /\
   fst (describe_pcr scripted nsm_device 0 (answering describe_answer))
   = inr pcr_description) /\
  (served scripted nsm_device (Attestation None (Some [x01; x02]) None)
          (answering (under "Attestation" (VBytes [xd2; x84])))
          (under "Attestation" (VBytes [xd2; x84])) /\
   fst (get_attestation_doc scripted nsm_device None (Some [x01; x02]) None
          (answering (under "Attestation" (VBytes [xd2; x84]))))
   = inr (VBytes [xd2; x84])) /\
  (served scripted nsm_device (ExtendPCR 16 [xaa])
          (answering (under "ExtendPCR" (VBytes (repeat x11 48))))
          (under "ExtendPCR" (VBytes (repeat x11 48))) /\
   fst (extend_pcr scripted nsm_device 16 [xaa]
          (answering (under "ExtendPCR" (VBytes (repeat x11 48)))))
   = inr (VBytes (repeat x11 48))) /\
  (served scripted nsm_device DescribeNSM
          (answering (under "DescribeNSM" (VDict [(VStr "max_pcrs", VInt 32)])))
          (under "DescribeNSM" (VDict [(VStr "max_pcrs", VInt 32)])) /\
   fst (describe_nsm scripted nsm_device
          (answering (under "DescribeNSM" (VDict [(VStr "max_pcrs", VInt 32)]))))
   = inr (VDict [(VStr "max_pcrs", VInt 32)])) /\
  (served scripted nsm_device DescribeNSM (answering error_answer) error_answer /\
   fst (describe_nsm scripted nsm_device (answering error_answer))
   = inl (IoctlError (VStr "InvalidIndex"))) /\
  (served scripted nsm_device (ExtendPCR 16 [xaa]) (answering lock_answer)
          lock_answer /\
   fst (extend_pcr scripted nsm_device 16 [xaa] (answering lock_answer))
   = inl (IoctlError VNone)).
Proof.
  pose (by_tag := fun fh c tag w r =>
                    tag_commands_return_or_raise scripted fh c tag w r).
  split; [served_case ltac:(fun fh c w r Hs =>
            exact (by_tag fh c "DescribePCR" w r eq_refl Hs)) |].
  split; [served_case ltac:(fun fh c w r Hs =>
            exact (by_tag fh c "Attestation" w r eq_refl Hs)) |].
  split; [served_case ltac:(fun fh c w r Hs =>
            exact (by_tag fh c "ExtendPCR" w r eq_refl Hs)) |].
  split; [served_case ltac:(fun fh c w r Hs =>
            exact (by_tag fh c "DescribeNSM" w r eq_refl Hs)) |].
  split; [served_case ltac:(fun fh c w r Hs =>
            exact (by_tag fh c "DescribeNSM" w r eq_refl Hs)) |].
  served_case ltac:(fun fh c w r Hs =>
    exact (by_tag fh c "ExtendPCR" w r eq_refl Hs)).
Defined.

(** [lock_pcr(4)] and [lock_pcrs(16)] answered
    [{"Error": "InvalidIndex"}] raise the driver error with
    "InvalidIndex", also when the mapping holds "LockPCR" as well; each
    of the four tag-returning commands raises it when the mapping lacks
    the command's tag and returns the value under the tag when the
    mapping holds both. *)
Lemma driver_error_classification_witness :
  (served scripted nsm_device (LockPCR 4) (answering error_answer) error_answer /\
   fst (call scripted nsm_device (LockPCR 4) (answering error_answer))
   = inl (IoctlError (VStr "InvalidIndex"))) /\
  (served scripted nsm_device (LockPCRs 16)
          (answering (error_and "LockPCR" (VDict [])))
          (error_and "LockPCR" (VDict [])) /\
   fst (call scripted nsm_device (LockPCRs 16)
             (answering (error_and "LockPCR" (VDict []))))
   = inl (IoctlError (VStr "InvalidIndex"))) /\
  (served scripted nsm_device (DescribePCR 0) (answering error_answer)
          error_answer /\
   fst (describe_pcr scripted nsm_device 0 (answering error_answer))
   = inl (IoctlError (VStr "InvalidIndex"))) /\
  (served scripted nsm_device (Attestation None None None)
          (answering error_answer) error_answer /\
   fst (get_attestation_doc scripted nsm_device None None None
          (answering error_answer))
   = inl (IoctlError (VStr "InvalidIndex"))) /\
  (served scripted nsm_device (ExtendPCR 16 [xaa]) (answering error_answer)
          error_answer /\
   fst (extend_pcr scripted nsm_device 16 [xaa] (answering error_answer))
   = inl (IoctlError (VStr "InvalidIndex"))) /\
  (served scripted nsm_device DescribeNSM (answering error_answer) error_answer /\
   fst (describe_nsm scripted nsm_device (answering error_answer))
   = inl (IoctlError (VStr "InvalidIndex"))) /\
  (served scripted nsm_device (DescribePCR 0)
          (answering (error_and "DescribePCR" pcr_description))
          (error_and "DescribePCR" pcr_description) /\
   fst (describe_pcr scripted nsm_device 0
          (answering (error_and "DescribePCR" pcr_description)))
   = inr pcr_description) /\
  (served scripted nsm_device (Attestation None None None)
          (answering (error_and "Attestation" (VBytes [xd2; x84])))
          (error_and "Attestation" (VBytes [xd2; x84])) /\
   fst (get_attestation_doc scripted nsm_device None None None
          (answering (error_and "Attestation" (VBytes [xd2; x84]))))
   = inr (VBytes [xd2; x84])) /\
  (served scripted nsm_device (ExtendPCR 16 [xaa])
          (answering (error_and "ExtendPCR" (VBytes (repeat x11 48))))
          (error_and "ExtendPCR" (VBytes (repeat x11 48))) /\
   fst (extend_pcr scripted nsm_device 16 [xaa]
          (answering (error_and "ExtendPCR" (VBytes (repeat x11 48)))))
   = inr (VBytes (repeat x11 48))) /\
  (served scripted nsm_device DescribeNSM
          (answering (error_and "DescribeNSM" (VDict [])))
          (error_and "DescribeNSM" (VDict [])) /\
   fst (describe_nsm scripted nsm_device
          (answering (error_and "DescribeNSM" (VDict []))))
   = inr (VDict [])).
Proof.
  pose (classified := fun fh c w items =>
                        driver_error_classification scripted fh c w items
                          (VStr "InvalidIndex")).
  split; [served_case ltac:(fun fh c w r Hs =>
            exact (proj1 (classified fh c w _ Hs eq_refl) eq_refl)) |].
  split; [served_case ltac:(fun fh c w r Hs =>
            exact (proj1 (classified fh c w _ Hs eq_refl) eq_refl)) |].
  split; [served_case ltac:(fun fh c w r Hs =>
            exact (proj2 (classified fh c w _ Hs eq_refl) "DescribePCR" eq_refl)) |].
  split; [served_case ltac:(fun fh c w r Hs =>
            exact (proj2 (classified fh c w _ Hs eq_refl) "Attestation" eq_refl)) |].
  split; [served_case ltac:(fun fh c w r Hs =>
            exact (proj2 (classified fh c w _ Hs eq_refl) "ExtendPCR" eq_refl)) |].
  split; [served_case ltac:(fun fh c w r Hs =>
            exact (proj2 (classified fh c w _ Hs eq_refl) "DescribeNSM" eq_refl)) |].
  split; [served_case ltac:(fun fh c w r Hs =>
            exact (proj2 (classified fh c w _ Hs eq_refl) "DescribePCR" eq_refl)) |].
  split; [served_case ltac:(fun fh c w r Hs =>
            exact (proj2 (classified fh c w _ Hs eq_refl) "Attestation" eq_refl)) |].
  split; [served_case ltac:(fun fh c w r Hs =>
            exact (proj2 (classified fh c w _ Hs eq_refl) "ExtendPCR" eq_refl)) |].
  served_case ltac:(fun fh c w r Hs =>
    exact (proj2 (classified fh c w _ Hs eq_refl) "DescribeNSM" eq_refl)).
Defined.

(** [get_random(0)] and [get_random(257)] raise at once.  Answered with
    64 random bytes, [get_random(1)] returns the first byte,
    [get_random()] the first 32 and [get_random(256)] all 64; answered
    with 300 bytes, [get_random(256)] returns the first 256. *)
Lemma get_random_serves_prefix_witness :
  (get_random scripted nsm_device (Some 0) (answering (random_answer 64))
   = (inl (ValueError "GetRandom supports length between 1 and 256 inclusive."),
      answering (random_answer 64)) /\
   emitted (get_random scripted nsm_device (Some 0)) (answering (random_answer 64))
   = []) /\
  (get_random scripted nsm_device (Some 257) (answering (random_answer 64))
   = (inl (ValueError "GetRandom supports length between 1 and 256 inclusive."),
      answering (random_answer 64)) /\
   emitted (get_random scripted nsm_device (Some 257)) (answering (random_answer 64))
   = []) /\
  (served scripted nsm_device (GetRandom (Some 1)) (answering (random_answer 64))
          (random_answer 64) /\
   fst (get_random scripted nsm_device (Some 1) (answering (random_answer 64)))
   = inr (VBytes (repeat x07 1))) /\
  (served scripted nsm_device (GetRandom None) (answering (random_answer 64))
          (random_answer 64) /\
   fst (get_random scripted nsm_device None (answering (random_answer 64)))
   = inr (VBytes (repeat x07 32))) /\
  (served scripted nsm_device (GetRandom (Some 256)) (answering (random_answer 64))
          (random_answer 64) /\
   fst (get_random scripted nsm_device (Some 256) (answering (random_answer 64)))
   = inr (VBytes (repeat x07 64))) /\
  (served scripted nsm_device (GetRandom (Some 256)) (answering (random_answer 300))
          (random_answer 300) /\
   fst (get_random scripted nsm_device (Some 256) (answering (random_answer 300)))
   = inr (VBytes (repeat x07 256))).
Proof.
  pose (prefix := fun length w =>
                    get_random_serves_prefix scripted nsm_device length w).
  assert (R1 : 1 <= requested_length (Some 1) <= 256) by (cbn; lia).
  assert (R32 : 1 <= requested_length None <= 256)
    by (unfold requested_length, get_random_default_length; lia).
  assert (R256 : 1 <= requested_length (Some 256) <= 256) by (cbn; lia).
  split.
  { apply (proj1 (prefix (Some 0) (answering (random_answer 64)))).
    left. cbn. lia. }
  split.
  { apply (proj1 (prefix (Some 257) (answering (random_answer 64)))).
    right. cbn. lia. }
  split; [served_case ltac:(fun fh c w r Hs =>
            exact (proj1 (proj2 (prefix (Some 1) w) R1 _ _ (repeat x07 64)
                                 Hs eq_refl eq_refl))) |].
  split; [served_case ltac:(fun fh c w r Hs =>
            exact (proj1 (proj2 (prefix None w) R32 _ _ (repeat x07 64)
                                 Hs eq_refl eq_refl))) |].
  split; [served_case ltac:(fun fh c w r Hs =>
            exact (proj1 (proj2 (prefix (Some 256) w) R256 _ _ (repeat x07 64)
                                 Hs eq_refl eq_refl))) |].
  served_case ltac:(fun fh c w r Hs =>
    exact (proj1 (proj2 (prefix (Some 256) w) R256 _ _ (repeat x07 300)
                         Hs eq_refl eq_refl))).
Defined.
